(** * The merge-conflicts dialog of the desktop client

    A shallow embedding of [app/src/ui/merge-conflicts/merge-conflicts-dialog.tsx]:
    the records the component reads, the effects it performs through the
    dispatcher and its callback props, its two event handlers, and the parts of
    [render] that decide what the user may do. *)

From Stdlib Require Import ZArith Lia.
From Stdlib Require Import QArith_base Qround.
From Stdlib Require Import SpecFloat.
From stdpp Require Import base decidable list strings pretty.

Local Open Scope Z_scope.

(** ** JavaScript numbers *)

(** A JavaScript [number] is an IEEE 754 binary64 value; the standard library's
    [spec_float] with a 53-bit mantissa is that format, and [SFdiv] is its
    correctly rounded division. *)
Module Number.
Definition prec : Z := 53.
Definition emax : Z := 1024.
Definition t := spec_float.

(** The number an integer literal or an integer count denotes. *)
Definition of_Z (z : Z) : t := binary_normalize prec emax z 0 false.

(** [x / y] *)
Definition div (x y : t) : t := SFdiv prec emax x y.

(** [x === y] *)
Definition strict_eq (x y : t) : bool := SFeqb x y.

(** The integer a number is, when it is one. *)
Definition to_Z (x : t) : option Z :=
  match x with
  | S754_zero _ => Some 0
  | S754_finite s m e =>
      let n := if s then Zneg m else Zpos m in
      match e with
      | Zneg k => if (n mod 2 ^ Zpos k =? 0) then Some (n / 2 ^ Zpos k) else None
      | _ => Some (n * 2 ^ e)
      end
  | _ => None
  end.

(** The mantissa an integer [0 < m < 2^53] is stored with, and the rounding
    direction read off a remainder modulo three; both only serve the proofs
    about [div]. *)
Definition mantissa (m : Z) : Z := m * 2 ^ (53 - Zdigits2 m).
Definition loc3 (r : Z) : location :=
  match r with 0 => loc_Exact | 1 => loc_Inexact Lt | _ => loc_Inexact Gt end.
End Number.

(** [Math.ceil]: NaN, the infinities and the zeros are returned as they are, and
    so is a value whose exponent is not negative (an integer already).
    Otherwise the value is [n / 2^k] with [n] the signed mantissa, and the
    result is the least integer not below it, or a zero of the same sign. *)
Definition Math_ceil (x : Number.t) : Number.t :=
  match x with
  | S754_finite s m (Zneg k) =>
      let n := if s then Zneg m else Zpos m in
      match - ((- n) / 2 ^ Zpos k) with
      | Z0 => S754_zero s
      | c => Number.of_Z c
      end
  | _ => x
  end.

(** ** Data model *)

(** Modelled from the spec: the enumeration [AppFileStatus] is declared in
    [models/status], which is not part of the sources at hand.  The spec gives
    it as [Resolved], [Conflicted], "plus other non-merge statuses"; the dialog
    only ever compares a status with the first two, so the remaining members
    are kept apart by a tag. *)
Variant AppFileStatus :=
  | Conflicted
  | Resolved
  | NonMerge (tag : nat).

#[global] Instance AppFileStatus_eq_dec : EqDecision AppFileStatus.
Proof. solve_decision. Defined.

(** [Repository] of [models/repository]: the dialog reads its [path] and
    otherwise only hands the object on. *)
Module Repository.
Record t := mk { path : string }.
End Repository.

(** [WorkingDirectoryFileChange]: the three fields the dialog reads.
    [conflictMarkers] is a JavaScript number holding a marker count. *)
Module WorkingDirectoryFileChange.
Record t := mk {
  path : string;
  status : AppFileStatus;
  conflictMarkers : Number.t;
}.
End WorkingDirectoryFileChange.

Module WorkingDirectoryStatus.
Record t := mk { files : list WorkingDirectoryFileChange.t }.
End WorkingDirectoryStatus.

Abbreviation file_status := WorkingDirectoryFileChange.status.
Abbreviation file_path := WorkingDirectoryFileChange.path.

(** [RepositorySectionTab] and [PopupType] of [lib/app-state]: the dialog names
    one member of each. *)
Variant RepositorySectionTab :=
  | Changes
  | OtherTab (tag : nat).

Variant PopupType :=
  | AbortMerge
  | OtherPopup (tag : nat).

(** The object literal passed to [dispatcher.showPopup]. *)
Record Popup := {
  popup_type : PopupType;
  popup_repository : Repository.t;
  popup_currentBranch : string;
  popup_comparisonBranch : string;
}.

(** [IMergeConflictsDialogProps], data part.  The function-valued props
    ([dispatcher], [onDismissed], [openFileInExternalEditor],
    [openRepositoryInShell]) are the effects below. *)
Record IMergeConflictsDialogProps := {
  repository : Repository.t;
  status : WorkingDirectoryStatus.t;
  externalEditorName : option string;
  currentBranch : string;
  comparisonBranch : string;
}.

(** ** Effects *)

(** [join(repositoryPath, file.path)] of node's [path] module, kept symbolic. *)
Record JoinedPath := join { join_base : string; join_rest : string }.

(** Every call the component makes on a collaborator. *)
Variant Effect :=
  | dispatcher_createMergeCommit (r : Repository.t)
                                 (files : list WorkingDirectoryFileChange.t)
  | dispatcher_changeRepositorySection (r : Repository.t) (tab : RepositorySectionTab)
  | dispatcher_abortMerge (r : Repository.t)
  | dispatcher_showPopup (p : Popup)
  | props_onDismissed
  | props_openFileInExternalEditor (p : JoinedPath)
  | props_openRepositoryInShell (r : Repository.t).

(** How a promise returned by the dispatcher settles. *)
Variant Settled := Fulfilled | Rejected.

(** ** The component *)

(** An instance of [MergeConflictsDialog]: [React.Component<Props, {}>] has no
    state of its own, only the props React last handed to it. *)
Record MergeConflictsDialog := { props : IMergeConflictsDialogProps }.

(** React builds the instance from the props the dialog is opened with and
    assigns [this.props] anew each time the parent renders it again; the class
    declares no fields besides its arrow functions. *)
Definition mount (opened : IMergeConflictsDialogProps) : MergeConflictsDialog :=
  {| props := opened |}.

Definition receiveProps (this : MergeConflictsDialog)
    (next : IMergeConflictsDialogProps) : MergeConflictsDialog :=
  {| props := next |}.

(** What the rest of the application does while a handler is suspended on an
    awaited call: how the promise settles, and the props React hands to the
    instance meanwhile, if it renders the dialog again. *)
Record Env := {
  settles : Effect → Settled;
  rerenders : Effect → option IMergeConflictsDialogProps;
}.

(** The instance as a handler finds it when it resumes after awaiting [e]. *)
Definition resumed (env : Env) (e : Effect) (this : MergeConflictsDialog)
  : MergeConflictsDialog :=
  match rerenders env e with
  | Some next => receiveProps this next
  | None => this
  end.

(** An [async] method body: run on an instance in an environment, it performs
    a sequence of effects, leaves the instance as React last rendered it, and
    either runs to its end ([Some]) or stops at an [await] whose promise
    rejected ([None]); the effects performed so far stay performed. *)
Definition Async (A : Type) : Type :=
  Env → MergeConflictsDialog → list Effect * MergeConflictsDialog * option A.

#[global] Instance Async_ret : MRet Async := λ A a _ this, ([], this, Some a).

#[global] Instance Async_bind : MBind Async := λ A B k m env this,
  match m env this with
  | (t, this', Some a) => let '(t', this'', b) := k a env this' in (t ++ t', this'', b)
  | (t, this', None) => (t, this', None)
  end.

(** [this], whose [props] are read afresh wherever the body mentions them. *)
Definition get_this : Async MergeConflictsDialog := λ _ this, ([], this, Some this).

(** A plain call: performed, then control returns. *)
Definition call (e : Effect) : Async unit := λ _ this, ([e], this, Some tt).

(** [await e]: the call is made and the body is suspended; it resumes only
    once the promise is fulfilled. *)
Definition await (e : Effect) : Async unit := λ env this,
  ([e], resumed env e this,
   match settles env e with Fulfilled => Some tt | Rejected => None end).

Definition trace {A} (m : Async A) (env : Env) (this : MergeConflictsDialog)
  : list Effect := (m env this).1.1.
Definition completes {A} (m : Async A) (env : Env) (this : MergeConflictsDialog)
  : bool := match (m env this).2 with Some _ => true | None => false end.

(** Environments used in examples: nothing is rendered again meanwhile. *)
Definition all_fulfilled : Env :=
  {| settles := λ _, Fulfilled; rerenders := λ _, None |}.
Definition all_rejected : Env :=
  {| settles := λ _, Rejected; rerenders := λ _, None |}.

Definition this_files (this : MergeConflictsDialog) :=
  WorkingDirectoryStatus.files (status (props this)).

(** [Array.prototype.some] *)
Definition some {A} (P : A → Prop) `{!∀ x, Decision (P x)} (l : list A) : bool :=
  bool_decide (Exists P l).

Definition getUnmergedFiles (this : MergeConflictsDialog)
  : list WorkingDirectoryFileChange.t :=
  filter (λ file, file_status file = Conflicted ∨ file_status file = Resolved)
         (this_files this).

Definition onSubmit : Async unit :=
  this ← get_this;
  await (dispatcher_createMergeCommit (repository (props this)) (this_files this));;
  this ← get_this;
  call (dispatcher_changeRepositorySection (repository (props this)) Changes);;
  call props_onDismissed.

Definition onCancel : Async unit :=
  this ← get_this;
  let anyResolvedFiles :=
    some (λ f, file_status f = Resolved) (getUnmergedFiles this) in
  if negb anyResolvedFiles then
    await (dispatcher_abortMerge (repository (props this)));;
    call props_onDismissed
  else
    call props_onDismissed;;
    this ← get_this;
    call (dispatcher_showPopup {|
      popup_type := AbortMerge;
      popup_repository := repository (props this);
      popup_currentBranch := currentBranch (props this);
      popup_comparisonBranch := comparisonBranch (props this);
    |}).

Definition openThisRepositoryInShell : Async unit :=
  this ← get_this;
  call (props_openRepositoryInShell (repository (props this))).

(** [calculateConflicts]: three markers delimit one conflict. *)
Definition calculateConflicts (conflictMarkers : Number.t) : Number.t :=
  Math_ceil (Number.div conflictMarkers (Number.of_Z 3)).

(** A count is an integer reached by counting up from zero, which in a
    JavaScript number is an integer from [0] to [2^53]: every integer of that
    range is a number, and adding one to [2^53] gives [2^53] again. *)
Definition isCount (m : Z) : Prop := 0 <= m <= 2 ^ 53.

(** The spec's [conflictCountFromMarkers], in the spec's words
    "[ceil(markerCount / 3)]", over the rationals; [calculateConflicts] is
    compared with it below. *)
Definition conflictCountFromMarkers (markerCount : Z) : Z :=
  Qceiling (markerCount # 3).

Definition titleString (currentBranchName comparisonBranchName : string) : string :=
  "Resolve conflicts before merging " +:+ comparisonBranchName +:+
  " into " +:+ currentBranchName.

(** [editorName || defaultEditorString]: [undefined] and the empty string are
    both falsy. *)
Definition editorButtonString (editorName : option string) : string :=
  let defaultEditorString := "editor" in
  "Open in " +:+
  match editorName with
  | Some name => if decide (name = "") then defaultEditorString else name
  | None => defaultEditorString
  end.

(** ** What [render] returns *)

(** The callbacks the rendered elements carry.  The first three are the arrow
    functions stored on the instance, which read [this.props] when they run;
    the last is the closure built per conflicted file. *)
Variant Handler :=
  | this_onSubmit
  | this_onCancel
  | this_openThisRepositoryInShell
  | onOpenEditorClick (target : JoinedPath).

Definition invoke (h : Handler) : Async unit :=
  match h with
  | this_onSubmit => onSubmit
  | this_onCancel => onCancel
  | this_openThisRepositoryInShell => openThisRepositoryInShell
  | onOpenEditorClick target => call (props_openFileInExternalEditor target)
  end.

(** A [<Button>]. *)
Record Button := {
  button_submit : bool;                (* type="submit" *)
  button_disabled : bool;
  button_tooltip : option string;
  button_onClick : option Handler;
  button_children : string;
}.

(** The text under a conflicted file: [`1 conflict`] or
    [`${humanReadableConflicts} conflicts`], the template kept symbolic. *)
Variant ConflictsMessage :=
  | one_conflict
  | n_conflicts (humanReadableConflicts : Number.t).

(** One [<li>] of the file list. *)
Variant FileItem :=
  | unmerged_file_status_resolved (path : string)
  | unmerged_file_status_conflicts (path : string) (message : ConflictsMessage)
                                   (button : Button).

Definition renderResolvedFile (path : string) : FileItem :=
  unmerged_file_status_resolved path.

Definition renderConflictedFile (path : string) (conflicts : Number.t)
    (editorName : option string) (onOpenEditorClick : Handler) : FileItem :=
  let humanReadableConflicts := calculateConflicts conflicts in
  let message :=
    if Number.strict_eq humanReadableConflicts (Number.of_Z 1)
    then one_conflict
    else n_conflicts humanReadableConflicts in
  unmerged_file_status_conflicts path message {|
    button_submit := false;
    button_disabled := false;
    button_tooltip := None;
    button_onClick := Some onOpenEditorClick;
    button_children := editorButtonString editorName;
  |}.

Definition renderUnmergedFile (file : WorkingDirectoryFileChange.t)
    (editorName : option string) (repositoryPath : string) : option FileItem :=
  match file_status file with
  | Resolved => Some (renderResolvedFile (file_path file))
  | Conflicted =>
      Some (renderConflictedFile (file_path file)
              (WorkingDirectoryFileChange.conflictMarkers file) editorName
              (onOpenEditorClick (join repositoryPath (file_path file))))
  | _ => None
  end.

Definition renderUnmergedFiles (files : list WorkingDirectoryFileChange.t)
    (editorName : option string) (repositoryPath : string) : list (option FileItem) :=
  map (λ f, renderUnmergedFile f editorName repositoryPath) files.

(** [`${n}`] for an integer [n]: its decimal digits, which is what JavaScript
    prints for every integer below [10^21]. *)
Definition toString (n : Z) : string := pretty n.

(** [renderUnmergedFilesSummary]: the text of the [<h3>].  The argument is an
    array length, an integer below [2^32]. *)
Definition renderUnmergedFilesSummary (unmergedFiles : Z) : string :=
  if decide (unmergedFiles = 1)
  then "1 conflicted file"
  else toString unmergedFiles +:+ " conflicted files".

Definition submitButtonString : string := "Commit merge".
Definition cancelButtonString : string := "Abort merge".

(** The [<Dialog>] element with its content and footer. *)
Record Dialog := {
  dialog_id : string;
  dialog_title : string;
  dialog_dismissable : bool;
  dialog_onDismissed : Handler;
  dialog_onSubmit : Handler;
  content_summary : string;
  content_unmergedFiles : list (option FileItem);
  content_shellLink : Handler;
  footer_submit : Button;
  footer_cancel : Button;
}.

Definition render (this : MergeConflictsDialog) : Dialog :=
  let unmergedFiles := getUnmergedFiles this in
  let anyConflictedFiles := some (λ f, file_status f = Conflicted) unmergedFiles in
  let titleString :=
    titleString (currentBranch (props this)) (comparisonBranch (props this)) in
  let tooltipString :=
    if anyConflictedFiles then Some "Resolve all changes before merging" else None in
  {| dialog_id := "merge-conflicts-list";
     dialog_title := titleString;
     dialog_dismissable := false;
     dialog_onDismissed := this_onCancel;
     dialog_onSubmit := this_onSubmit;
     content_summary := renderUnmergedFilesSummary (Z.of_nat (length unmergedFiles));
     content_unmergedFiles :=
       renderUnmergedFiles unmergedFiles (externalEditorName (props this))
                           (Repository.path (repository (props this)));
     content_shellLink := this_openThisRepositoryInShell;
     footer_submit := {|
       button_submit := true;
       button_disabled := anyConflictedFiles;
       button_tooltip := tooltipString;
       button_onClick := None;
       button_children := submitButtonString;
     |};
     footer_cancel := {|
       button_submit := false;
       button_disabled := false;
       button_tooltip := None;
       button_onClick := Some this_onCancel;
       button_children := cancelButtonString;
     |};
  |}.

(** ** The instance over time *)

(** The instance after the dialog was opened and then rendered again with each
    of [updates] in turn. *)
Definition session (opened : IMergeConflictsDialogProps)
    (updates : list IMergeConflictsDialogProps) : MergeConflictsDialog :=
  foldl receiveProps (mount opened) updates.

(** Which way a run of the cancel handler went, read off its effects. *)
Variant CancelPath := DirectAbort | ConfirmationDetour.

Definition cancelPath (t : list Effect) : option CancelPath :=
  match t with
  | dispatcher_abortMerge _ :: _ => Some DirectAbort
  | props_onDismissed :: dispatcher_showPopup _ :: _ => Some ConfirmationDetour
  | _ => None
  end.

(** A record of the in-progress merge, in the spec's words an unmerged file. *)
Definition unmerged (f : WorkingDirectoryFileChange.t) : Prop :=
  file_status f = Conflicted ∨ file_status f = Resolved.

(** The two operations on the merge itself. *)
Definition isMergeOperation (e : Effect) : bool :=
  match e with
  | dispatcher_createMergeCommit _ _ | dispatcher_abortMerge _ => true
  | _ => false
  end.

(** The four dispatcher calls of the handlers, with the arguments the handlers
    give them. *)
Definition finalize_of (this : MergeConflictsDialog) : Effect :=
  dispatcher_createMergeCommit (repository (props this)) (this_files this).
Definition navigate_of (this : MergeConflictsDialog) : Effect :=
  dispatcher_changeRepositorySection (repository (props this)) Changes.
Definition abort_of (this : MergeConflictsDialog) : Effect :=
  dispatcher_abortMerge (repository (props this)).
Definition confirmation_of (this : MergeConflictsDialog) : Effect :=
  dispatcher_showPopup {|
    popup_type := AbortMerge;
    popup_repository := repository (props this);
    popup_currentBranch := currentBranch (props this);
    popup_comparisonBranch := comparisonBranch (props this);
  |}.

(** ** Sample data *)

Definition sample_repository : Repository.t := Repository.mk "/home/me/desktop".

Definition sample_file (path : string) (st : AppFileStatus) (markers : Z)
  : WorkingDirectoryFileChange.t :=
  WorkingDirectoryFileChange.mk path st (Number.of_Z markers).

Definition sample_dialog (files : list WorkingDirectoryFileChange.t)
  : MergeConflictsDialog :=
  mount {| repository := sample_repository;
           status := WorkingDirectoryStatus.mk files;
           externalEditorName := None;
           currentBranch := "master";
           comparisonBranch := "feature" |}.

(** ** A dismissal that does not go through the buttons *)

(** Modelled from the spec: the [Dialog] component of [ui/dialog], which
    decides what happens when the user dismisses a dialog other than through
    its buttons (the close button, Escape, a click on the backdrop), is not
    among the sources.  The spec has such a dismissal of this dialog trigger
    no merge operation, "this core does not attempt cleanup".  What [render]
    gives the [Dialog] to go by is the [dismissable] flag along with the
    [onDismissed] handler, and the model takes it from there: on such a
    dismissal a dismissable dialog calls its [onDismissed], and one that is
    not dismissable calls nothing. *)
Definition Dialog_onDismiss (d : Dialog) : Async unit :=
  if dialog_dismissable d then invoke (dialog_onDismissed d) else mret tt.

(** The same element with another [dismissable] flag. *)
Definition set_dismissable (b : bool) (d : Dialog) : Dialog :=
  {| dialog_id := dialog_id d;
     dialog_title := dialog_title d;
     dialog_dismissable := b;
     dialog_onDismissed := dialog_onDismissed d;
     dialog_onSubmit := dialog_onSubmit d;
     content_summary := content_summary d;
     content_unmergedFiles := content_unmergedFiles d;
     content_shellLink := content_shellLink d;
     footer_submit := footer_submit d;
     footer_cancel := footer_cancel d |}.

(** ** Reading what was rendered *)

(** The path an item of the file list shows, and its button if it has one. *)
Definition item_path (i : FileItem) : string :=
  match i with
  | unmerged_file_status_resolved path => path
  | unmerged_file_status_conflicts path _ _ => path
  end.

Definition item_button (i : FileItem) : option Button :=
  match i with
  | unmerged_file_status_resolved _ => None
  | unmerged_file_status_conflicts _ _ button => Some button
  end.

Definition item_message (i : FileItem) : option ConflictsMessage :=
  match i with
  | unmerged_file_status_resolved _ => None
  | unmerged_file_status_conflicts _ message _ => Some message
  end.

(** The instance with the same props except for the file list. *)
Definition with_files (this : MergeConflictsDialog)
    (files : list WorkingDirectoryFileChange.t) : MergeConflictsDialog :=
  {| props := {| repository := repository (props this);
                 status := WorkingDirectoryStatus.mk files;
                 externalEditorName := externalEditorName (props this);
                 currentBranch := currentBranch (props this);
                 comparisonBranch := comparisonBranch (props this) |} |}.

(** How many files of a list have a given status. *)
Definition count_status (st : AppFileStatus)
    (files : list WorkingDirectoryFileChange.t) : nat :=
  length (filter (λ f, file_status f = st) files).

(** The button [renderConflictedFile] puts beside a conflicted file. *)
Definition editor_button (editorName : option string) (h : Handler) : Button :=
  {| button_submit := false;
     button_disabled := false;
     button_tooltip := None;
     button_onClick := Some h;
     button_children := editorButtonString editorName |}.

(** * Properties *)

(** ** Division by three in binary64 *)

Section Binary64.
Implicit Types (m M e n : Z) (p : positive) (l : location).

(** [digits2_pos p] is the number of binary digits of [p]. *)
Lemma digits2_pos_spec p :
  2 ^ (Zpos (digits2_pos p) - 1) <= Zpos p < 2 ^ Zpos (digits2_pos p).
Proof.
  induction p as [p IH|p IH|]; cbn [digits2_pos].
  - rewrite Pos2Z.inj_succ, Z.pow_succ_r by lia.
    replace (Z.succ (Zpos (digits2_pos p)) - 1) with (Z.succ (Zpos (digits2_pos p) - 1)) by lia.
    rewrite Z.pow_succ_r by lia. lia.
  - rewrite Pos2Z.inj_succ, Z.pow_succ_r by lia.
    replace (Z.succ (Zpos (digits2_pos p)) - 1) with (Z.succ (Zpos (digits2_pos p) - 1)) by lia.
    rewrite Z.pow_succ_r by lia. lia.
  - cbn. lia.
Qed.

Lemma digits2_pos_unique p k :
  2 ^ (k - 1) <= Zpos p < 2 ^ k -> Zpos (digits2_pos p) = k.
Proof.
  intros [Hlo Hhi]. pose proof (digits2_pos_spec p) as [Hlo' Hhi'].
  assert (0 <= k) by (destruct k; try lia; rewrite Z.pow_neg_r in Hhi; lia).
  destruct (Z.lt_trichotomy (Zpos (digits2_pos p)) k) as [Hlt|[Heq|Hgt]]; [|exact Heq|].
  - assert (2 ^ Zpos (digits2_pos p) <= 2 ^ (k - 1)) by (apply Z.pow_le_mono_r; lia). lia.
  - assert (2 ^ k <= 2 ^ (Zpos (digits2_pos p) - 1)) by (apply Z.pow_le_mono_r; lia). lia.
Qed.

(** Appending [k] zero bits multiplies by [2^k]. *)
Lemma iter_xO_spec k p : Zpos (Pos.iter xO p k) = Zpos p * 2 ^ Zpos k.
Proof.
  revert p. induction k as [|k IH] using Pos.peano_ind; intros p.
  - cbn. lia.
  - rewrite Pos.iter_succ, Pos2Z.inj_succ, Z.pow_succ_r by lia.
    rewrite Pos2Z.inj_xO, IH. lia.
Qed.

(** A 53-digit mantissa is not shifted when rounded, a 54-digit one is
    shifted by one place. *)
Lemma shr_fexp_fits M e l :
  0 < M -> Zdigits2 M = 53 -> -1074 <= e ->
  shr_fexp 53 1024 M e l = (shr_record_of_loc M l, e).
Proof.
  intros HM Hd He. unfold shr_fexp, fexp, emin. rewrite Hd.
  replace (Z.max (53 + e - 53) (3 - 1024 - 53) - e) with 0 by lia.
  reflexivity.
Qed.

Lemma shr_fexp_one M e l :
  0 < M -> Zdigits2 M = 54 -> -1075 <= e ->
  shr_fexp 53 1024 M e l = (shr_1 (shr_record_of_loc M l), e + 1).
Proof.
  intros HM Hd He. unfold shr_fexp, fexp, emin. rewrite Hd.
  replace (Z.max (54 + e - 53) (3 - 1024 - 53) - e) with 1 by lia.
  reflexivity.
Qed.

Lemma Zdigits2_unique n k :
  0 < n -> 2 ^ (k - 1) <= n < 2 ^ k -> Zdigits2 n = k.
Proof.
  intros Hn H. destruct n as [|p|p]; try lia. cbn [Zdigits2].
  now apply digits2_pos_unique.
Qed.

Lemma Zdigits2_spec n :
  0 < n -> 2 ^ (Zdigits2 n - 1) <= n < 2 ^ Zdigits2 n.
Proof.
  intros Hn. destruct n as [|p|p]; try lia. apply digits2_pos_spec.
Qed.

(** Settles [Zdigits2 q = 53] or [54] from numeric bounds on [q]. *)
Local Ltac count_digits :=
  apply Zdigits2_unique; [lia|];
  change (2 ^ (53 - 1)) with 4503599627370496;
  change (2 ^ 53) with 9007199254740992;
  change (2 ^ (54 - 1)) with 9007199254740992;
  change (2 ^ 54) with 18014398509481984;
  lia.

(** Normalising [0 < m < 2^53] shifts it up to exactly 53 digits. *)
Lemma mantissa_bounds m :
  0 < m < 2 ^ 53 -> 1 <= Zdigits2 m <= 53 /\ 2 ^ 52 <= Number.mantissa m < 2 ^ 53.
Proof.
  intros [Hm Hlt]. pose proof (Zdigits2_spec m Hm) as [Hlo Hhi].
  set (d := Zdigits2 m) in *.
  assert (1 <= d) by (destruct m; try lia; cbn in d; lia).
  assert (d <= 53).
  { destruct (Z_le_gt_dec d 53); [lia|].
    assert (2 ^ 53 <= 2 ^ (d - 1)) by (apply Z.pow_le_mono_r; lia). lia. }
  split; [lia|]. unfold Number.mantissa. fold d.
  replace (2 ^ 52) with (2 ^ (d - 1) * 2 ^ (53 - d))
    by (rewrite <- Z.pow_add_r by lia; f_equal; lia).
  replace (2 ^ 53) with (2 ^ d * 2 ^ (53 - d))
    by (rewrite <- Z.pow_add_r by lia; f_equal; lia).
  assert (0 < 2 ^ (53 - d)) by (apply Z.pow_pos_nonneg; lia).
  nia.
Qed.

(** Rounding leaves an exact 53-digit mantissa alone. *)
Lemma round_aux_exact M e :
  2 ^ 52 <= M < 2 ^ 53 -> -1074 <= e <= 971 ->
  binary_round_aux 53 1024 false M e loc_Exact = S754_finite false (Z.to_pos M) e.
Proof.
  intros HM He.
  assert (Hd : Zdigits2 M = 53) by (apply Zdigits2_unique; [lia|exact HM]).
  unfold binary_round_aux.
  rewrite shr_fexp_fits by lia. cbn [shr_record_of_loc shr_m loc_of_shr_record round_nearest_even].
  rewrite shr_fexp_fits by lia. cbn [shr_record_of_loc shr_m].
  destruct M as [|p|p]; try lia.
  replace (e <=? 1024 - 53) with true by (symmetry; apply Z.leb_le; lia).
  reflexivity.
Qed.

(** The representation of a positive integer below [2^53]. *)
Lemma of_Z_pos m :
  0 < m < 2 ^ 53 ->
  Number.of_Z m = S754_finite false (Z.to_pos (Number.mantissa m)) (Zdigits2 m - 53).
Proof.
  intros Hm. pose proof (mantissa_bounds m Hm) as [Hd HM].
  destruct m as [|p|p]; try lia.
  unfold Number.of_Z, binary_normalize, binary_round, Number.prec, Number.emax.
  change (Zpos (digits2_pos p)) with (Zdigits2 (Zpos p)) in *.
  set (d := Zdigits2 (Zpos p)) in *.
  assert (Hf : fexp 53 1024 (d + 0) = d - 53) by (unfold fexp, emin; lia).
  rewrite Hf. unfold shl_align.
  destruct (d - 53 - 0) as [|k|k] eqn:Hk; try lia.
  - assert (HM' : Number.mantissa (Zpos p) = Zpos p).
    { unfold Number.mantissa. fold d. replace (53 - d) with 0 by lia. lia. }
    rewrite HM' in *. replace (d - 53) with 0 by lia.
    now rewrite round_aux_exact by lia.
  - assert (HM' : Zpos (Pos.iter xO p k) = Number.mantissa (Zpos p)).
    { rewrite iter_xO_spec. unfold Number.mantissa. fold d. do 2 f_equal. lia. }
    rewrite HM'. rewrite round_aux_exact by lia. reflexivity.
Qed.

Lemma div_eucl_pair a b : IntDef.Z.div_eucl a b = (a / b, a mod b).
Proof. unfold Z.div, Z.modulo. now destruct (Z.div_eucl a b). Qed.

Lemma of_Z_three : Number.of_Z 3 = S754_finite false 6755399441055744 (-51).
Proof. reflexivity. Qed.

(** Dividing the mantissa of [m] by that of three: the integer quotient is
    that of [m * 2^(55 - d)] by [3], with [d] the number of digits of [m], and
    the rounding direction is read off the remainder. *)
Lemma div_core m :
  0 < m < 2 ^ 53 ->
  let d := Zdigits2 m in
  SFdiv_core_binary 53 1024 (Number.mantissa m) (d - 53) 6755399441055744 (-51)
  = ((m * 2 ^ (55 - d)) / 3, d - 55, new_location 6755399441055744 ((m * 2 ^ (55 - d)) mod 3 * 2 ^ 51)).
Proof.
  intros Hm d. pose proof (mantissa_bounds m Hm) as [Hd HM]. fold d in Hd.
  unfold SFdiv_core_binary.
  rewrite (Zdigits2_unique (Number.mantissa m) 53) by lia.
  change (Zdigits2 6755399441055744) with 53.
  assert (Hf : Z.min (fexp 53 1024 (53 + (d - 53) - (53 + -51))) (d - 53 - -51) = d - 55)
    by (unfold fexp, emin; lia).
  rewrite Hf. replace (d - 53 - -51 - (d - 55)) with 53 by lia.
  rewrite Z.shiftl_mul_pow2 by lia.
  assert (Hnum : Number.mantissa m * 2 ^ 53 = (m * 2 ^ (55 - d)) * 2 ^ 51).
  { unfold Number.mantissa. fold d. rewrite <- !Z.mul_assoc, <- !Z.pow_add_r by lia.
    do 2 f_equal. lia. }
  rewrite Hnum. change 6755399441055744 with (3 * 2 ^ 51) at 1.
  rewrite div_eucl_pair.
  rewrite Z.div_mul_cancel_r by lia.
  rewrite Zmult_mod_distr_r. reflexivity.
Qed.

Lemma location_of_remainder r :
  0 <= r < 3 ->
  new_location 6755399441055744 (r * 2 ^ 51)
  = match r with 0 => loc_Exact | 1 => loc_Inexact Lt | _ => loc_Inexact Gt end.
Proof.
  intros Hr. assert (r = 0 \/ r = 1 \/ r = 2) as [->|[->| ->]] by lia; reflexivity.
Qed.

(** Rounding the quotient [4 * M / 3] of a 53-digit [M] to 53 digits: the
    quotient has 53 or 54 digits, so it is kept or shifted by one place, and
    either way three times the result is within one of the scaled dividend. *)
Lemma round_aux_quotient M e :
  2 ^ 52 <= M < 2 ^ 53 -> -1074 <= e <= 900 ->
  exists mant sh,
    binary_round_aux 53 1024 false (4 * M / 3) e (Number.loc3 ((4 * M) mod 3))
    = S754_finite false mant (e + sh) /\
    ((sh = 0 /\ -1 <= 3 * Zpos mant - 4 * M <= 1) \/
     (sh = 1 /\ -1 <= 3 * Zpos mant - 2 * M <= 1)).
Proof.
  intros HM He.
  pose proof (Z.div_mod (4 * M) 3 ltac:(lia)) as Hqr.
  pose proof (Z.mod_pos_bound (4 * M) 3 ltac:(lia)) as Hr.
  set (q := 4 * M / 3) in *. set (r := (4 * M) mod 3) in *.
  change (2 ^ 52) with 4503599627370496 in *.
  change (2 ^ 53) with 9007199254740992 in *.
  assert (Hq : 4503599627370496 < q < 18014398509481984) by lia.
  unfold binary_round_aux.
  destruct (Z_lt_ge_dec q 9007199254740992) as [Hlt|Hge].
  - rewrite shr_fexp_fits; [|lia|count_digits|lia].
    assert (Hround : exists q', round_nearest_even (shr_m (shr_record_of_loc q (Number.loc3 r)))
                        (loc_of_shr_record (shr_record_of_loc q (Number.loc3 r))) = Zpos q'
                      /\ -1 <= 3 * Zpos q' - 4 * M <= 1).
    { assert (r = 0 \/ r = 1 \/ r = 2) as [Hr0|[Hr0|Hr0]] by lia; rewrite Hr0 in *;
        cbn [Number.loc3 shr_record_of_loc shr_m loc_of_shr_record round_nearest_even].
      - exists (Z.to_pos q). rewrite Z2Pos.id by lia. split; [reflexivity|lia].
      - exists (Z.to_pos q). rewrite Z2Pos.id by lia. split; [reflexivity|lia].
      - exists (Z.to_pos (q + 1)). rewrite Z2Pos.id by lia. split; [reflexivity|lia]. }
    destruct Hround as (q' & -> & Hq').
    rewrite shr_fexp_fits; [|lia|count_digits|lia].
    cbn [shr_record_of_loc shr_m].
    replace (e <=? 1024 - 53) with true by (symmetry; apply Z.leb_le; lia).
    exists q', 0. rewrite Z.add_0_r. split; [reflexivity|left; lia].
  - rewrite shr_fexp_one; [|lia|count_digits|lia].
    assert (Hround : exists q', round_nearest_even (shr_m (shr_1 (shr_record_of_loc q (Number.loc3 r))))
                        (loc_of_shr_record (shr_1 (shr_record_of_loc q (Number.loc3 r)))) = Zpos q'
                      /\ -1 <= 3 * Zpos q' - 2 * M <= 1).
    { destruct q as [|[p|p|]|]; try lia;
      (assert (r = 0 \/ r = 1 \/ r = 2) as [Hr0|[Hr0|Hr0]] by lia; rewrite Hr0 in *;
        cbn [Number.loc3 shr_record_of_loc shr_1 orb shr_m loc_of_shr_record round_nearest_even]);
      try lia;
      try (exists p; split; [reflexivity|lia]);
      try (exists (p + 1)%positive; split; [reflexivity|lia]). }
    destruct Hround as (q' & -> & Hq').
    rewrite shr_fexp_fits; [|lia|count_digits|lia].
    cbn [shr_record_of_loc shr_m].
    replace (e + 1 <=? 1024 - 53) with true by (symmetry; apply Z.leb_le; lia).
    exists q', 1. split; [reflexivity|right; lia].
Qed.

(** A value within a third of a unit in the last place of [m / 3], with at
    least one binary place after the point, has the ceiling of [m / 3]. *)
Lemma Math_ceil_of_rounded mant k m :
  0 < m ->
  -1 <= 3 * Zpos mant - m * 2 ^ Zpos k <= 1 ->
  Math_ceil (S754_finite false mant (Zneg k)) = Number.of_Z ((m + 2) / 3).
Proof.
  intros Hm Hmant.
  assert (HT : 2 <= 2 ^ Zpos k).
  { change 2 with (2 ^ 1) at 1. apply Z.pow_le_mono_r; lia. }
  set (T := 2 ^ Zpos k) in *. set (c := (m + 2) / 3).
  assert (Hc : 3 * (c - 1) < m <= 3 * c).
  { pose proof (Z.div_mod (m + 2) 3 ltac:(lia)).
    pose proof (Z.mod_pos_bound (m + 2) 3 ltac:(lia)). fold c in H. lia. }
  assert (Hdiv : - Zpos mant / T = - c).
  { symmetry. apply (Z.div_unique _ _ _ (c * T - Zpos mant)); nia. }
  unfold Math_ceil. fold T. rewrite Hdiv, Z.opp_involutive.
  destruct c; [lia|reflexivity|lia].
Qed.

(** On every integer from [0] to [2^53] the binary64 computation gives the
    exact ceiling of the third. *)
Lemma calculateConflicts_exact m :
  0 <= m <= 2 ^ 53 ->
  calculateConflicts (Number.of_Z m) = Number.of_Z ((m + 2) / 3).
Proof.
  intros Hm.
  destruct (Z.eq_dec m 0) as [->|Hnz]; [reflexivity|].
  destruct (Z.eq_dec m (2 ^ 53)) as [->|Hmax]; [vm_compute; reflexivity|].
  assert (Hm' : 0 < m < 2 ^ 53) by lia.
  pose proof (mantissa_bounds m Hm') as [Hd HM].
  unfold calculateConflicts, Number.div.
  rewrite of_Z_pos, of_Z_three by lia. unfold Number.prec, Number.emax, SFdiv.
  rewrite Z2Pos.id by lia.
  rewrite div_core by lia. cbv zeta.
  rewrite location_of_remainder by (apply Z.mod_pos_bound; lia).
  assert (HN : m * 2 ^ (55 - Zdigits2 m) = 4 * Number.mantissa m).
  { unfold Number.mantissa. replace (55 - Zdigits2 m) with (2 + (53 - Zdigits2 m)) by lia.
    rewrite Z.pow_add_r by lia. change (2 ^ 2) with 4. lia. }
  rewrite HN.
  destruct (round_aux_quotient (Number.mantissa m) (Zdigits2 m - 55) HM ltac:(lia))
    as (mant & sh & Heq & Hsh).
  unfold Number.loc3 in Heq. cbn [xorb]. rewrite Heq.
  destruct Hsh as [[-> Hb]|[-> Hb]].
  - destruct (Zdigits2 m - 55 + 0) as [|k|k] eqn:Hk; try lia.
    apply Math_ceil_of_rounded; [lia|].
    replace (Zpos k) with (55 - Zdigits2 m) by lia. lia.
  - destruct (Zdigits2 m - 55 + 1) as [|k|k] eqn:Hk; try lia.
    apply Math_ceil_of_rounded; [lia|].
    replace (Zpos k) with (54 - Zdigits2 m) by lia.
    assert (m * 2 ^ (54 - Zdigits2 m) = 2 * Number.mantissa m); [|lia].
    unfold Number.mantissa. replace (54 - Zdigits2 m) with (1 + (53 - Zdigits2 m)) by lia.
    rewrite Z.pow_add_r by lia. lia.
Qed.

End Binary64.

(** ** The unmerged files *)

Section UnmergedFiles.
Implicit Types (this : MergeConflictsDialog) (f : WorkingDirectoryFileChange.t).

Lemma some_true {A} (P : A → Prop) `{!∀ x, Decision (P x)} (l : list A) :
  some P l = true ↔ Exists P l.
Proof. unfold some. apply bool_decide_eq_true. Qed.

Lemma some_false {A} (P : A → Prop) `{!∀ x, Decision (P x)} (l : list A) :
  some P l = false ↔ Forall (λ x, ¬ P x) l.
Proof.
  unfold some. rewrite bool_decide_eq_false. split.
  - apply (not_Exists_Forall P).
  - apply (Forall_not_Exists P).
Qed.

Lemma elem_of_getUnmergedFiles this f :
  f ∈ getUnmergedFiles this ↔ f ∈ this_files this ∧ unmerged f.
Proof. unfold getUnmergedFiles, unmerged. rewrite list_elem_of_filter. tauto. Qed.

(** Filtering keeps every merge status, so a status looked for among the
    unmerged files is found there exactly when the snapshot has it. *)
Lemma Exists_status_unmerged this (st : AppFileStatus) :
  st = Conflicted ∨ st = Resolved →
  Exists (λ f, file_status f = st) (getUnmergedFiles this)
  ↔ Exists (λ f, file_status f = st) (this_files this).
Proof.
  intros Hst. rewrite !Exists_exists. split; intros (f & Hf & Hs).
  - exists f. apply elem_of_getUnmergedFiles in Hf. tauto.
  - exists f. split; [|done]. apply elem_of_getUnmergedFiles.
    split; [done|]. unfold unmerged. by rewrite Hs.
Qed.

Lemma sublist_all_filter {A} (P : A → Prop) `{!∀ x, Decision (P x)} (l k : list A) :
  l `sublist_of` k → Forall P l → l `sublist_of` filter P k.
Proof.
  induction 1 as [|x l k _ IH|x l k _ IH]; intros HP.
  - constructor.
  - apply Forall_cons in HP as [Hx HP].
    rewrite filter_cons_True by done. constructor. auto.
  - rewrite filter_cons. destruct (decide (P x)); [constructor|]; auto.
Qed.
End UnmergedFiles.

(** C5: the selection of unmerged files holds exactly the records of the
    snapshot whose status is [Resolved] or [Conflicted]: a record is selected
    if and only if it is such a record of the snapshot; the selection is the
    snapshot with records left out, so the original order is kept; and nothing
    that qualifies is left out, since every sub-sequence of the snapshot made
    of such records is a sub-sequence of the selection. *)
Theorem getUnmergedFiles_exact this :
  (∀ f, f ∈ getUnmergedFiles this ↔ f ∈ this_files this ∧ unmerged f) ∧
  getUnmergedFiles this `sublist_of` this_files this ∧
  (∀ l, l `sublist_of` this_files this → Forall unmerged l →
        l `sublist_of` getUnmergedFiles this).
Proof.
  split; [|split].
  - intros f. apply elem_of_getUnmergedFiles.
  - apply sublist_filter.
  - intros l Hsub Hall. by apply sublist_all_filter.
Qed.

(** ** The commit button *)

(** C1: the submit button is not disabled if and only if no unmerged file has
    status [Conflicted]; counting over the whole snapshot gives the same
    answer. *)
Theorem commit_enabled_iff_no_conflicted this :
  (button_disabled (footer_submit (render this)) = false
   ↔ Forall (λ f, file_status f ≠ Conflicted) (getUnmergedFiles this)) ∧
  (button_disabled (footer_submit (render this)) = false
   ↔ Forall (λ f, file_status f ≠ Conflicted) (this_files this)).
Proof.
  assert (Hun : button_disabled (footer_submit (render this)) = false
                ↔ Forall (λ f, file_status f ≠ Conflicted) (getUnmergedFiles this)).
  { cbn. apply some_false. }
  split; [exact Hun|]. rewrite Hun.
  split; intros Hall.
  - apply (not_Exists_Forall (λ f, file_status f = Conflicted)).
    rewrite <- Exists_status_unmerged by auto.
    by apply (Forall_not_Exists (λ f, file_status f = Conflicted)).
  - apply (not_Exists_Forall (λ f, file_status f = Conflicted)).
    rewrite Exists_status_unmerged by auto.
    by apply (Forall_not_Exists (λ f, file_status f = Conflicted)).
Qed.

(** The button that carries the flag is the one that submits the dialog, and
    submitting runs [onSubmit]. *)
Lemma submit_button_wiring this :
  button_submit (footer_submit (render this)) = true ∧
  dialog_onSubmit (render this) = this_onSubmit ∧
  (button_tooltip (footer_submit (render this)) = None
   ↔ button_disabled (footer_submit (render this)) = false).
Proof.
  split; [done|]. split; [done|]. cbn.
  destruct (some _ _); split; intros; congruence.
Qed.

(** ** The handlers *)

Create HintDb async.
#[local] Hint Unfold trace completes get_this call await mbind mret
  Async_bind Async_ret : async.

Ltac run_async := autounfold with async; cbn.

(** Membership in a short explicit list of effects, settled by cases. *)
Ltac not_among Hin :=
  unfold finalize_of, navigate_of, abort_of, confirmation_of in Hin;
  repeat (apply elem_of_cons in Hin as [Hin|Hin]; [congruence|]);
  by apply elem_of_nil in Hin.

Section Handlers.
Implicit Types (this : MergeConflictsDialog) (env : Env).

(** The effects of [onCancel] on its first branch. *)
Lemma onCancel_direct this env :
  Forall (λ f, file_status f ≠ Resolved) (getUnmergedFiles this) →
  trace onCancel env this
  = abort_of this ::
    match settles env (abort_of this) with
    | Fulfilled => [props_onDismissed]
    | Rejected => []
    end.
Proof.
  intros Hnone. apply (some_false (λ f, file_status f = Resolved)) in Hnone.
  unfold onCancel. run_async. rewrite Hnone. cbn.
  fold (abort_of this). by destruct (settles env (abort_of this)).
Qed.

(** The effects of [onCancel] on its second branch. *)
Lemma onCancel_detour this env :
  Exists (λ f, file_status f = Resolved) (getUnmergedFiles this) →
  trace onCancel env this = [props_onDismissed; confirmation_of this] ∧
  completes onCancel env this = true.
Proof.
  intros Hsome. apply (proj2 (some_true _ _)) in Hsome.
  unfold onCancel. run_async. by rewrite Hsome.
Qed.

(** The effects of [onSubmit]; the section is changed for the repository of
    the props the instance has when the handler resumes. *)
Lemma onSubmit_trace this env :
  trace onSubmit env this
  = finalize_of this ::
    match settles env (finalize_of this) with
    | Fulfilled => [navigate_of (resumed env (finalize_of this) this); props_onDismissed]
    | Rejected => []
    end.
Proof.
  unfold onSubmit. run_async. fold (finalize_of this).
  by destruct (settles env (finalize_of this)).
Qed.
End Handlers.

(** ** Cancel *)

(** C2: when no unmerged file is [Resolved], cancel calls abort-merge first
    and directly; once that call is fulfilled the dialog is dismissed, and
    nothing else happens.  Should the call be rejected the handler stops there.
    The abort-confirmation dialog is never requested. *)
Theorem cancel_without_resolved_aborts (this : MergeConflictsDialog) (env : Env) :
  Forall (λ f, file_status f ≠ Resolved) (getUnmergedFiles this) →
  head (trace onCancel env this)
    = Some (dispatcher_abortMerge (repository (props this))) ∧
  (settles env (dispatcher_abortMerge (repository (props this))) = Fulfilled →
   trace onCancel env this
     = [dispatcher_abortMerge (repository (props this)); props_onDismissed]) ∧
  (settles env (dispatcher_abortMerge (repository (props this))) = Rejected →
   trace onCancel env this = [dispatcher_abortMerge (repository (props this))]) ∧
  (∀ p, dispatcher_showPopup p ∉ trace onCancel env this).
Proof.
  intros Hnone. rewrite (onCancel_direct this env Hnone). unfold abort_of.
  destruct (settles env _); repeat split; try done; intros p Hp; not_among Hp.
Qed.

Lemma cancel_without_resolved_aborts_witness :
  trace onCancel all_fulfilled (sample_dialog [sample_file "a.txt" Conflicted 3])
  = [dispatcher_abortMerge sample_repository; props_onDismissed].
Proof.
  apply (cancel_without_resolved_aborts
           (sample_dialog [sample_file "a.txt" Conflicted 3]) all_fulfilled).
  - vm_compute. repeat constructor. discriminate.
  - reflexivity.
Defined.

(** C3: when some unmerged file is [Resolved], cancel does not call
    abort-merge: it dismisses the dialog and then requests the abort-merge
    popup, handing over the repository and the current and comparison branch
    names; the handler runs to its end. *)
Theorem cancel_with_resolved_confirms (this : MergeConflictsDialog) (env : Env) :
  Exists (λ f, file_status f = Resolved) (getUnmergedFiles this) →
  trace onCancel env this
    = [props_onDismissed;
       dispatcher_showPopup {|
         popup_type := AbortMerge;
         popup_repository := repository (props this);
         popup_currentBranch := currentBranch (props this);
         popup_comparisonBranch := comparisonBranch (props this) |}] ∧
  completes onCancel env this = true ∧
  (∀ r, dispatcher_abortMerge r ∉ trace onCancel env this).
Proof.
  intros Hsome. destruct (onCancel_detour this env Hsome) as [-> ->].
  split; [done|]. split; [done|]. intros r Hr. not_among Hr.
Qed.

Lemma cancel_with_resolved_confirms_witness :
  trace onCancel all_rejected
        (sample_dialog [sample_file "a.txt" Conflicted 3;
                        sample_file "b.txt" Resolved 0])
  = [props_onDismissed;
     dispatcher_showPopup {|
       popup_type := AbortMerge;
       popup_repository := sample_repository;
       popup_currentBranch := "master";
       popup_comparisonBranch := "feature" |}].
Proof.
  apply (cancel_with_resolved_confirms
           (sample_dialog [sample_file "a.txt" Conflicted 3;
                           sample_file "b.txt" Resolved 0]) all_rejected).
  vm_compute. apply Exists_cons_tl, Exists_cons_hd. reflexivity.
Defined.

(** ** Commit *)

(** C6: whatever [onSubmit] does, it does in the order finalize-merge, switch
    to the changes section, dismiss: its effects are an initial part of that
    sequence and start with finalize-merge.  The last two steps happen exactly
    when the awaited finalize-merge is fulfilled, and then all three have
    happened. *)
Theorem onSubmit_order (this : MergeConflictsDialog) (env : Env) :
  let finalize :=
    dispatcher_createMergeCommit (repository (props this)) (this_files this) in
  let navigate :=
    dispatcher_changeRepositorySection
      (repository (props (resumed env finalize this))) Changes in
  trace onSubmit env this `prefix_of` [finalize; navigate; props_onDismissed] ∧
  head (trace onSubmit env this) = Some finalize ∧
  (settles env finalize = Fulfilled
   ↔ trace onSubmit env this = [finalize; navigate; props_onDismissed]) ∧
  (settles env finalize = Rejected ↔ trace onSubmit env this = [finalize]).
Proof.
  cbn zeta. rewrite onSubmit_trace. unfold finalize_of, navigate_of.
  destruct (settles env _); repeat split; try done.
  by eexists [_; _].
Qed.

(** C10: the list handed to finalize-merge is the snapshot's whole file list.
    It is the first effect, no finalize-merge with another list occurs, and
    so whenever filtering removes something the filtered list is not what is
    passed. *)
Theorem onSubmit_passes_whole_snapshot (this : MergeConflictsDialog) (env : Env) :
  head (trace onSubmit env this)
    = Some (dispatcher_createMergeCommit
              (repository (props this))
              (WorkingDirectoryStatus.files (status (props this)))) ∧
  (∀ r fs, dispatcher_createMergeCommit r fs ∈ trace onSubmit env this →
           fs = WorkingDirectoryStatus.files (status (props this))) ∧
  (getUnmergedFiles this ≠ WorkingDirectoryStatus.files (status (props this)) →
   ∀ r, dispatcher_createMergeCommit r (getUnmergedFiles this)
          ∉ trace onSubmit env this).
Proof.
  assert (Hall : ∀ r fs, dispatcher_createMergeCommit r fs ∈ trace onSubmit env this →
                         fs = WorkingDirectoryStatus.files (status (props this))).
  { intros r fs. rewrite onSubmit_trace. unfold finalize_of, navigate_of, this_files.
    intros Hin. destruct (settles env _); not_among Hin. }
  split; [by rewrite onSubmit_trace|]. split; [exact Hall|].
  intros Hne r Hin. apply Hne. eauto.
Qed.

(** The filtered list and the whole list do differ: a file that merged
    cleanly is committed although the dialog does not list it. *)
Example onSubmit_commits_unlisted_file :
  let this := sample_dialog [sample_file "a.txt" Resolved 0;
                             sample_file "README.md" (NonMerge 1) 0] in
  getUnmergedFiles this = [sample_file "a.txt" Resolved 0] ∧
  trace onSubmit all_fulfilled this
  = [dispatcher_createMergeCommit sample_repository
       [sample_file "a.txt" Resolved 0; sample_file "README.md" (NonMerge 1) 0];
     dispatcher_changeRepositorySection sample_repository Changes;
     props_onDismissed].
Proof. split; reflexivity. Qed.

(** The arguments are read when each call is made: rendered again with
    another repository while finalize-merge is pending, the dialog switches
    the section of that repository. *)
Example onSubmit_reads_props_when_resumed :
  let this := sample_dialog [sample_file "a.txt" Resolved 0] in
  let other := Repository.mk "/home/me/other" in
  let env :=
    {| settles := λ _, Fulfilled;
       rerenders := λ _, Some {| repository := other;
                                 status := status (props this);
                                 externalEditorName := None;
                                 currentBranch := "master";
                                 comparisonBranch := "feature" |} |} in
  trace onSubmit env this
  = [dispatcher_createMergeCommit sample_repository [sample_file "a.txt" Resolved 0];
     dispatcher_changeRepositorySection other Changes;
     props_onDismissed].
Proof. reflexivity. Qed.

(** ** Dismissal *)

(** The handler [render] registers for a dismissal is the very handler of the
    cancel button: run, it acts as cancel does; it never calls finalize-merge,
    and it calls abort-merge exactly when no unmerged file is [Resolved]. *)
Lemma dismiss_is_cancel (this : MergeConflictsDialog) (env : Env) :
  dialog_dismissable (render this) = false ∧
  button_onClick (footer_cancel (render this)) = Some (dialog_onDismissed (render this)) ∧
  invoke (dialog_onDismissed (render this)) = onCancel ∧
  (∀ r fs, dispatcher_createMergeCommit r fs
             ∉ trace (invoke (dialog_onDismissed (render this))) env this) ∧
  (dispatcher_abortMerge (repository (props this))
     ∈ trace (invoke (dialog_onDismissed (render this))) env this
   ↔ Forall (λ f, file_status f ≠ Resolved) (getUnmergedFiles this)).
Proof.
  split; [done|]. split; [done|]. split; [done|].
  cbn [render dialog_onDismissed invoke].
  destruct (decide (Exists (λ f, file_status f = Resolved) (getUnmergedFiles this)))
    as [Hsome|Hnone].
  - destruct (onCancel_detour this env Hsome) as [-> _]. split.
    + intros r fs Hin. not_among Hin.
    + split.
      * intros Hin. not_among Hin.
      * intros Hall. by apply (Forall_not_Exists _ _ Hall) in Hsome.
  - apply (not_Exists_Forall _) in Hnone.
    rewrite (onCancel_direct this env Hnone). split.
    + intros r fs Hin. unfold abort_of in Hin. destruct (settles env _); not_among Hin.
    + split; [done|]. intros _. apply elem_of_cons. by left.
Qed.

(** C7: a dismissal that does not go through the commit or cancel button
    triggers no merge operation.  [render] declares the dialog not
    dismissable, so on such a dismissal nothing of the component runs,
    whatever the snapshot and whatever the instance's props are by then:
    there is no effect at all, neither finalize-merge nor abort-merge. *)
Theorem generic_dismiss_triggers_nothing
    (this later : MergeConflictsDialog) (env : Env) :
  dialog_dismissable (render this) = false ∧
  trace (Dialog_onDismiss (render this)) env later = [] ∧
  (∀ r fs, dispatcher_createMergeCommit r fs
             ∉ trace (Dialog_onDismiss (render this)) env later) ∧
  (∀ r, dispatcher_abortMerge r ∉ trace (Dialog_onDismiss (render this)) env later) ∧
  existsb isMergeOperation (trace (Dialog_onDismiss (render this)) env later) = false.
Proof.
  assert (Hnil : trace (Dialog_onDismiss (render this)) env later = []) by done.
  rewrite Hnil. repeat split; try done; intros; apply not_elem_of_nil.
Qed.

(** It is the flag that keeps the merge untouched, not the handler: the same
    element, were it dismissable, would run the cancel handler on dismissal,
    and with nothing resolved that aborts the merge. *)
Example dismissable_dialog_would_abort :
  let this := sample_dialog [sample_file "a.txt" Conflicted 3] in
  trace (Dialog_onDismiss (set_dismissable true (render this))) all_fulfilled this
  = [dispatcher_abortMerge sample_repository; props_onDismissed] ∧
  existsb isMergeOperation
    (trace (Dialog_onDismiss (set_dismissable true (render this)))
           all_fulfilled this) = true.
Proof. split; reflexivity. Qed.

(** ** The cancel decision over the life of the dialog *)

(** The instance keeps nothing of the props it had before. *)
Lemma session_last opened updates current :
  session opened (updates ++ [current]) = mount current.
Proof. unfold session. by rewrite foldl_app. Qed.

Lemma cancelPath_onCancel (this : MergeConflictsDialog) (env : Env) :
  cancelPath (trace onCancel env this)
  = Some (if some (λ f, file_status f = Resolved) (this_files this)
          then ConfirmationDetour else DirectAbort).
Proof.
  destruct (some _ (this_files this)) eqn:Hs.
  - apply some_true in Hs. apply (Exists_status_unmerged this Resolved) in Hs; [|auto].
    by destruct (onCancel_detour this env Hs) as [-> _].
  - apply some_false in Hs.
    assert (Hnone : Forall (λ f, file_status f ≠ Resolved) (getUnmergedFiles this)).
    { apply (not_Exists_Forall (λ f, file_status f = Resolved)).
      rewrite Exists_status_unmerged by auto.
      by apply (Forall_not_Exists (λ f, file_status f = Resolved)). }
    by rewrite (onCancel_direct this env Hnone).
Qed.

(** C8: an instance that was opened with [opened] and has since been rendered
    with [updates] and last with [current] is the instance that only ever saw
    [current]; nothing of the earlier snapshots is kept, and cancel does on it
    what it does on a dialog just opened with [current].  Which way cancel
    goes is decided by the current snapshot alone: the confirmation detour if
    it holds a [Resolved] file, the direct abort if it holds none; so two
    invocations that see the same current file list go the same way, whatever
    their dialogs were opened with and whatever the rest of the application
    does meanwhile. *)
Theorem cancel_decision_recomputed
    (opened : IMergeConflictsDialogProps) (updates : list IMergeConflictsDialogProps)
    (current : IMergeConflictsDialogProps) (env : Env) :
  let this := session opened (updates ++ [current]) in
  let files := WorkingDirectoryStatus.files (status current) in
  trace onCancel env this = trace onCancel env (mount current) ∧
  (cancelPath (trace onCancel env this) = Some ConfirmationDetour
   ↔ Exists (λ f, file_status f = Resolved) files) ∧
  (cancelPath (trace onCancel env this) = Some DirectAbort
   ↔ Forall (λ f, file_status f ≠ Resolved) files) ∧
  (∀ opened' updates' current' env',
     WorkingDirectoryStatus.files (status current') = files →
     cancelPath (trace onCancel env' (session opened' (updates' ++ [current'])))
     = cancelPath (trace onCancel env this)).
Proof.
  cbn zeta. rewrite session_last. split; [done|].
  rewrite cancelPath_onCancel. unfold this_files. cbn [mount props].
  split; [|split].
  - rewrite <- (some_true (λ f, file_status f = Resolved)).
    destruct (some _ _); split; congruence.
  - rewrite <- (some_false (λ f, file_status f = Resolved)).
    destruct (some _ _); split; congruence.
  - intros opened' updates' current' env' Hfiles.
    rewrite session_last, cancelPath_onCancel. unfold this_files. cbn [mount props].
    by rewrite Hfiles.
Qed.

(** The dialog opens with nothing resolved; the user resolves a file; cancel
    then takes the confirmation detour. *)
Example cancel_after_resolving :
  let props_with files :=
    {| repository := sample_repository;
       status := WorkingDirectoryStatus.mk files;
       externalEditorName := None;
       currentBranch := "master";
       comparisonBranch := "feature" |} in
  let opened := props_with [sample_file "a.txt" Conflicted 3] in
  let current := props_with [sample_file "a.txt" Resolved 0] in
  cancelPath (trace onCancel all_fulfilled (mount opened)) = Some DirectAbort ∧
  cancelPath (trace onCancel all_fulfilled (session opened [current]))
  = Some ConfirmationDetour.
Proof. split; reflexivity. Qed.

(** ** The summary line *)

Lemma String_length_app (s1 s2 : string) :
  String.length (s1 +:+ s2) = (String.length s1 + String.length s2)%nat.
Proof. induction s1 as [|c s1 IH]; simpl; [done|by f_equal]. Qed.

Lemma plural_is_not_singular (s : string) :
  s +:+ " conflicted files" ≠ "1 conflicted file".
Proof.
  intros H. pose proof (f_equal String.length H) as Hlen.
  rewrite String_length_app in Hlen. cbn in Hlen.
  destruct s as [|c s]; [discriminate H|cbn in Hlen; lia].
Qed.

(** C9: the summary is the singular "1 conflicted file" exactly when the count
    is one; for every other count it is the count in decimal followed by
    " conflicted files".  [render] applies it to the number of unmerged files,
    and a snapshot with one conflicted and one resolved file is summarised as
    "2 conflicted files". *)
Theorem summary_singular_iff_one (n : Z) :
  (renderUnmergedFilesSummary n = "1 conflicted file" ↔ n = 1) ∧
  (renderUnmergedFilesSummary n = toString n +:+ " conflicted files" ↔ n ≠ 1) ∧
  (∀ this : MergeConflictsDialog,
     content_summary (render this)
     = renderUnmergedFilesSummary (Z.of_nat (length (getUnmergedFiles this)))) ∧
  content_summary (render (sample_dialog [sample_file "a.txt" Conflicted 3;
                                          sample_file "b.txt" Resolved 0]))
  = "2 conflicted files".
Proof.
  unfold renderUnmergedFilesSummary. repeat split; try done.
  - destruct (decide (n = 1)); [done|]. intros H. by apply plural_is_not_singular in H.
  - intros ->. done.
  - destruct (decide (n = 1)) as [->|]; [|done]. intros H. symmetry in H.
    by apply plural_is_not_singular in H.
  - intros Hn. by destruct (decide (n = 1)).
Qed.

Example summary_labels :
  renderUnmergedFilesSummary 0 = "0 conflicted files" ∧
  renderUnmergedFilesSummary 1 = "1 conflicted file" ∧
  renderUnmergedFilesSummary 2 = "2 conflicted files" ∧
  renderUnmergedFilesSummary 12 = "12 conflicted files".
Proof. repeat split; reflexivity. Qed.

(** ** The number of conflicts in a file *)

(** Every integer from [0] to [2^53] is a number: [of_Z] stores it exactly. *)
Lemma to_Z_of_Z (m : Z) : isCount m → Number.to_Z (Number.of_Z m) = Some m.
Proof.
  intros Hm. unfold isCount in Hm.
  destruct (Z.eq_dec m 0) as [->|Hnz]; [reflexivity|].
  destruct (Z.eq_dec m (2 ^ 53)) as [->|Hmax]; [vm_compute; reflexivity|].
  assert (Hm' : 0 < m < 2 ^ 53) by lia.
  pose proof (mantissa_bounds m Hm') as [Hd HM].
  rewrite of_Z_pos by lia. unfold Number.to_Z.
  rewrite Z2Pos.id by lia. unfold Number.mantissa.
  destruct (Zdigits2 m - 53) as [|k|k] eqn:Hk; try lia.
  - replace (53 - Zdigits2 m) with 0 by lia. rewrite Z.pow_0_r. f_equal. lia.
  - replace (53 - Zdigits2 m) with (Zpos k) by lia.
    rewrite Z.mod_mul, Z.div_mul by (apply Z.pow_nonzero; lia). reflexivity.
Qed.

(** So distinct counts are distinct numbers. *)
Lemma of_Z_inj (a b : Z) :
  isCount a → isCount b → Number.of_Z a = Number.of_Z b → a = b.
Proof.
  intros Ha Hb Heq. apply to_Z_of_Z in Ha, Hb.
  rewrite Heq in Ha. congruence.
Qed.

Lemma conflictCountFromMarkers_div (m : Z) :
  conflictCountFromMarkers m = (m + 2) / 3.
Proof.
  unfold conflictCountFromMarkers, Qceiling, Qfloor. cbn [Qopp Qnum Qden].
  pose proof (Z.div_mod (- m) 3 ltac:(lia)).
  pose proof (Z.mod_pos_bound (- m) 3 ltac:(lia)).
  apply (Z.div_unique _ _ _ (m + 2 + 3 * (- m / 3))); lia.
Qed.

(** C4: for every marker count [m], [calculateConflicts] returns
    [ceil(m / 3)], the least integer [c] with [m <= 3 * c]; it is not zero
    when [m] is positive; and it maps 3 to 1, 4 to 2, 6 to 2 and 7 to 3. *)
Theorem calculateConflicts_ceil (m : Z) :
  isCount m →
  calculateConflicts (Number.of_Z m) = Number.of_Z (conflictCountFromMarkers m) ∧
  Number.to_Z (calculateConflicts (Number.of_Z m)) = Some (conflictCountFromMarkers m) ∧
  3 * (conflictCountFromMarkers m - 1) < m <= 3 * conflictCountFromMarkers m ∧
  (0 < m →
   Number.strict_eq (calculateConflicts (Number.of_Z m)) (Number.of_Z 0) = false) ∧
  (calculateConflicts (Number.of_Z 3) = Number.of_Z 1 ∧
   calculateConflicts (Number.of_Z 4) = Number.of_Z 2 ∧
   calculateConflicts (Number.of_Z 6) = Number.of_Z 2 ∧
   calculateConflicts (Number.of_Z 7) = Number.of_Z 3).
Proof.
  intros Hm. rewrite calculateConflicts_exact by exact Hm.
  rewrite conflictCountFromMarkers_div.
  pose proof (Z.div_mod (m + 2) 3 ltac:(lia)) as Hdm.
  pose proof (Z.mod_pos_bound (m + 2) 3 ltac:(lia)) as Hr.
  split; [done|]. split; [apply to_Z_of_Z; unfold isCount in *; lia|].
  split; [lia|]. split; [|by repeat split].
  intros Hpos. unfold isCount in Hm. change (2 ^ 53) with 9007199254740992 in Hm.
  rewrite of_Z_pos by (change (2 ^ 53) with 9007199254740992; lia).
  reflexivity.
Qed.

Lemma calculateConflicts_ceil_witness :
  calculateConflicts (Number.of_Z 7) = Number.of_Z 3.
Proof.
  apply (calculateConflicts_ceil 7). unfold isCount. vm_compute. split; discriminate.
Defined.

(** [Math_ceil] on halves and on negative values. *)
Example Math_ceil_samples :
  Math_ceil (Number.div (Number.of_Z 5) (Number.of_Z 2)) = Number.of_Z 3 ∧
  Math_ceil (Number.div (Number.of_Z (-5)) (Number.of_Z 2)) = Number.of_Z (-2) ∧
  Math_ceil (Number.div (Number.of_Z (-1)) (Number.of_Z 2)) = S754_zero true ∧
  Math_ceil (Number.of_Z 4) = Number.of_Z 4 ∧
  Math_ceil (Number.div (Number.of_Z 1) (Number.of_Z 0)) = S754_infinity false.
Proof. repeat split; reflexivity. Qed.

(** Counting stops at [2^53]: one more is rounded away. *)
Remark count_saturates :
  SFadd Number.prec Number.emax (Number.of_Z (2 ^ 53)) (Number.of_Z 1)
  = Number.of_Z (2 ^ 53).
Proof. vm_compute. reflexivity. Qed.

(** Far beyond any count the quotient itself is rounded to an integer, and the
    result is then one less than the ceiling. *)
Remark calculateConflicts_beyond_counts :
  Number.to_Z (Number.of_Z (3 * 2 ^ 52 + 4)) = Some (3 * 2 ^ 52 + 4) ∧
  Number.to_Z (calculateConflicts (Number.of_Z (3 * 2 ^ 52 + 4))) = Some (2 ^ 52 + 1) ∧
  conflictCountFromMarkers (3 * 2 ^ 52 + 4) = 2 ^ 52 + 2.
Proof. repeat split; vm_compute; reflexivity. Qed.

(** The text shown for a conflicted file with seven markers. *)
Example renderConflictedFile_seven_markers :
  renderUnmergedFile (sample_file "a.txt" Conflicted 7) None "/home/me/desktop"
  = Some (unmerged_file_status_conflicts "a.txt" (n_conflicts (Number.of_Z 3))
            {| button_submit := false;
               button_disabled := false;
               button_tooltip := None;
               button_onClick :=
                 Some (onOpenEditorClick (join "/home/me/desktop" "a.txt"));
               button_children := "Open in editor" |}) ∧
  renderUnmergedFile (sample_file "b.txt" Conflicted 3) (Some "Atom") "/home/me/desktop"
  = Some (unmerged_file_status_conflicts "b.txt" one_conflict
            {| button_submit := false;
               button_disabled := false;
               button_tooltip := None;
               button_onClick :=
                 Some (onOpenEditorClick (join "/home/me/desktop" "b.txt"));
               button_children := "Open in Atom" |}) ∧
  renderUnmergedFile (sample_file "c.txt" (NonMerge 0) 0) None "/home/me/desktop" = None.
Proof. repeat split; reflexivity. Qed.

(** * Further properties of the component *)

(** ** The file list *)

Lemma renderUnmergedFile_unmerged (f : WorkingDirectoryFileChange.t)
    (editorName : option string) (repositoryPath : string) :
  unmerged f →
  ∃ i, renderUnmergedFile f editorName repositoryPath = Some i ∧
       item_path i = file_path f.
Proof.
  unfold unmerged, renderUnmergedFile. intros [Hs|Hs]; rewrite Hs; eauto.
Qed.

(** X1: the file list of the dialog has one item per unmerged file, in the
    same order and showing that file's path; no entry is left empty although
    [renderUnmergedFile] can return [null]; and the number in the summary line
    is the number of items. *)
Theorem rendered_list_matches_unmerged_files (this : MergeConflictsDialog) :
  fmap item_path <$> content_unmergedFiles (render this)
    = Some ∘ file_path <$> getUnmergedFiles this ∧
  Forall is_Some (content_unmergedFiles (render this)) ∧
  content_summary (render this)
    = renderUnmergedFilesSummary
        (Z.of_nat (length (content_unmergedFiles (render this)))).
Proof.
  cbn [render content_unmergedFiles content_summary]. unfold renderUnmergedFiles.
  assert (Hall : Forall unmerged (getUnmergedFiles this)).
  { apply Forall_forall. intros f Hf. by apply elem_of_getUnmergedFiles in Hf as [_ ?]. }
  split; [|split].
  - induction Hall as [|f l Hf _ IH]; [done|]. cbn. f_equal; [|exact IH].
    destruct (renderUnmergedFile_unmerged f (externalEditorName (props this))
                (Repository.path (repository (props this))) Hf) as (i & -> & <-).
    done.
  - induction Hall as [|f l Hf _ IH]; [constructor|]. cbn. constructor; [|exact IH].
    destruct (renderUnmergedFile_unmerged f (externalEditorName (props this))
                (Repository.path (repository (props this))) Hf) as (i & -> & _).
    by eexists.
  - by rewrite length_map.
Qed.

(** X2: every conflicted file of the snapshot has an item in the list with
    its path and a button labelled with the editor, and clicking that button
    does one thing only, whatever the props are by then: it opens the file
    under the repository path the dialog was rendered with. *)
Theorem conflicted_file_opens_in_editor
    (this : MergeConflictsDialog) (f : WorkingDirectoryFileChange.t) :
  f ∈ this_files this →
  file_status f = Conflicted →
  ∃ i b h,
    Some i ∈ content_unmergedFiles (render this) ∧
    item_path i = file_path f ∧
    item_button i = Some b ∧
    button_disabled b = false ∧
    button_children b = editorButtonString (externalEditorName (props this)) ∧
    button_onClick b = Some h ∧
    ∀ env later,
      trace (invoke h) env later
      = [props_openFileInExternalEditor
           (join (Repository.path (repository (props this))) (file_path f))].
Proof.
  intros Hin Hst.
  assert (Hun : f ∈ getUnmergedFiles this).
  { apply elem_of_getUnmergedFiles. split; [done|]. by left. }
  eexists _, _, _. split.
  - cbn [render content_unmergedFiles]. unfold renderUnmergedFiles.
    apply list_elem_of_fmap. exists f. split; [|exact Hun].
    unfold renderUnmergedFile. rewrite Hst. reflexivity.
  - repeat split.
Qed.

Lemma conflicted_file_opens_in_editor_witness :
  ∃ i b h,
    Some i ∈ content_unmergedFiles
               (render (sample_dialog [sample_file "a.txt" Conflicted 3])) ∧
    item_path i = "a.txt" ∧
    item_button i = Some b ∧
    button_disabled b = false ∧
    button_children b = "Open in editor" ∧
    button_onClick b = Some h ∧
    ∀ env later,
      trace (invoke h) env later
      = [props_openFileInExternalEditor (join "/home/me/desktop" "a.txt")].
Proof.
  apply (conflicted_file_opens_in_editor
           (sample_dialog [sample_file "a.txt" Conflicted 3])
           (sample_file "a.txt" Conflicted 3)).
  - vm_compute. apply elem_of_cons. by left.
  - reflexivity.
Defined.

(** X3: a resolved file is listed without any button, so nothing in the
    dialog can open it in the editor: every resolved file of the snapshot has
    an item with its path and no button, and, whatever the snapshot, every
    item of the list that has a button belongs to a conflicted file. *)
Theorem resolved_file_has_no_button (this : MergeConflictsDialog) :
  (∀ f, f ∈ this_files this → file_status f = Resolved →
        ∃ i, Some i ∈ content_unmergedFiles (render this) ∧
             i = unmerged_file_status_resolved (file_path f) ∧
             item_button i = None) ∧
  (∀ i, Some i ∈ content_unmergedFiles (render this) →
        is_Some (item_button i) →
        ∃ g, g ∈ this_files this ∧ file_status g = Conflicted ∧
             item_path i = file_path g ∧
             i = renderConflictedFile (file_path g)
                   (WorkingDirectoryFileChange.conflictMarkers g)
                   (externalEditorName (props this))
                   (onOpenEditorClick
                      (join (Repository.path (repository (props this)))
                            (file_path g)))).
Proof.
  cbn [render content_unmergedFiles]. unfold renderUnmergedFiles. split.
  - intros f Hin Hst. eexists. split; [|split; reflexivity].
    apply list_elem_of_fmap. exists f. split.
    + unfold renderUnmergedFile. by rewrite Hst.
    + apply elem_of_getUnmergedFiles. split; [done|]. by right.
  - intros i Hi [b Hb]. apply list_elem_of_fmap in Hi as (g & Hg & Hgin).
    apply elem_of_getUnmergedFiles in Hgin as [Hgin _].
    exists g. unfold renderUnmergedFile in Hg.
    destruct (file_status g) eqn:Hsg; try discriminate;
      injection Hg as ->; [done|discriminate].
Qed.

Lemma resolved_file_has_no_button_witness :
  ∃ i, Some i ∈ content_unmergedFiles
                  (render (sample_dialog [sample_file "a.txt" Conflicted 3;
                                          sample_file "b.txt" Resolved 0])) ∧
       i = unmerged_file_status_resolved "b.txt" ∧
       item_button i = None.
Proof.
  apply (proj1 (resolved_file_has_no_button
                  (sample_dialog [sample_file "a.txt" Conflicted 3;
                                  sample_file "b.txt" Resolved 0]))
                (sample_file "b.txt" Resolved 0)).
  - vm_compute. apply elem_of_cons. right. apply elem_of_cons. by left.
  - reflexivity.
Defined.

(** With nothing resolved in the snapshot the second part still speaks: the
    only button in the list is that of the conflicted file. *)
Example only_conflicted_files_have_buttons :
  let this := sample_dialog [sample_file "a.txt" Conflicted 3] in
  omap (λ o, o ≫= item_button) (content_unmergedFiles (render this))
  = [editor_button None (onOpenEditorClick (join "/home/me/desktop" "a.txt"))].
Proof. reflexivity. Qed.

(** ** Labels *)

(** X4: the editor button always names an editor: the given name when there
    is one and it is not empty, and the word "editor" both when no name is
    given and when the name is the empty string. *)
Theorem editorButtonString_names_an_editor (editorName : option string) :
  ∃ name,
    editorButtonString editorName = "Open in " +:+ name ∧
    name ≠ "" ∧
    (∀ n, editorName = Some n → n ≠ "" → name = n) ∧
    (editorName = None ∨ editorName = Some "" → name = "editor").
Proof.
  unfold editorButtonString. destruct editorName as [n|].
  - destruct (decide (n = "")) as [->|Hn].
    + exists "editor". repeat split; try done. intros n [= <-] Hn. done.
    + exists n. repeat split; try done.
      * by intros n' [= ->] _.
      * intros [|[= ->]]; done.
  - exists "editor". repeat split; done.
Qed.

(** X5: the hint on the commit button is shown exactly when the button is
    disabled, that is exactly when the snapshot has a conflicted file, and it
    is always the same sentence. *)
Theorem commit_hint_iff_conflicted (this : MergeConflictsDialog) :
  (button_tooltip (footer_submit (render this))
     = Some "Resolve all changes before merging"
   ↔ Exists (λ f, file_status f = Conflicted) (this_files this)) ∧
  (button_tooltip (footer_submit (render this)) = None
   ↔ Forall (λ f, file_status f ≠ Conflicted) (this_files this)) ∧
  (is_Some (button_tooltip (footer_submit (render this)))
   ↔ button_disabled (footer_submit (render this)) = true).
Proof.
  cbn [render footer_submit button_tooltip button_disabled].
  rewrite <- (Exists_status_unmerged this Conflicted) by auto.
  rewrite <- (some_true (λ f, file_status f = Conflicted)).
  assert (Hno : Forall (λ f, file_status f ≠ Conflicted) (this_files this)
                ↔ some (λ f, file_status f = Conflicted) (getUnmergedFiles this) = false).
  { rewrite (some_false (λ f, file_status f = Conflicted)). split; intros Hall.
    - apply (not_Exists_Forall (λ f, file_status f = Conflicted)).
      rewrite Exists_status_unmerged by auto.
      by apply (Forall_not_Exists (λ f, file_status f = Conflicted)).
    - apply (not_Exists_Forall (λ f, file_status f = Conflicted)).
      rewrite <- Exists_status_unmerged by auto.
      by apply (Forall_not_Exists (λ f, file_status f = Conflicted)). }
  rewrite Hno. destruct (some _ _); repeat split; try done; try congruence.
Qed.

(** ** What the dialog shows depends on the unmerged files only *)

Lemma getUnmergedFiles_with_files this files :
  getUnmergedFiles (with_files this files) = filter unmerged files.
Proof. reflexivity. Qed.

Lemma filter_unmerged_idemp (files : list WorkingDirectoryFileChange.t) :
  filter unmerged (filter unmerged files) = filter unmerged files.
Proof.
  induction files as [|f l IH]; [done|].
  rewrite (filter_cons unmerged f l). destruct (decide (unmerged f)) as [Hf|Hf]; [|done].
  rewrite (filter_cons_True unmerged) by done. by rewrite IH.
Qed.

(** X6: files of any other status make no difference to what is rendered:
    the dialog for a snapshot is the dialog for its unmerged files alone.
    (The commit handler, by contrast, passes them on.) *)
Theorem render_ignores_other_files
    (this : MergeConflictsDialog) (files : list WorkingDirectoryFileChange.t) :
  render (with_files this files)
  = render (with_files this (getUnmergedFiles (with_files this files))).
Proof.
  unfold render. rewrite !getUnmergedFiles_with_files, filter_unmerged_idemp.
  reflexivity.
Qed.

(** X7: the number in the summary line counts the resolved files along with
    the conflicted ones: it is the number of files with status [Conflicted]
    plus the number with status [Resolved]. *)
Theorem summary_counts_conflicted_and_resolved (this : MergeConflictsDialog) :
  content_summary (render this)
  = renderUnmergedFilesSummary
      (Z.of_nat (count_status Conflicted (this_files this))
       + Z.of_nat (count_status Resolved (this_files this))).
Proof.
  cbn [render content_summary]. f_equal. rewrite <- Nat2Z.inj_add. f_equal.
  unfold getUnmergedFiles, count_status.
  induction (this_files this) as [|f l IH]; [done|].
  rewrite !filter_cons.
  destruct (file_status f) eqn:Hs; repeat case_decide;
    try discriminate; try tauto; cbn [length]; lia.
Qed.

(** X8: when the snapshot has no unmerged file at all, the dialog shows
    "0 conflicted files" over an empty list, the commit button is enabled
    without a hint, and cancel aborts the merge without asking: it calls
    abort-merge, then dismisses the dialog if that call is fulfilled, and
    does nothing else; no popup is requested. *)
Theorem dialog_without_unmerged_files (this : MergeConflictsDialog) (env : Env) :
  Forall (λ f, ¬ unmerged f) (this_files this) →
  content_summary (render this) = "0 conflicted files" ∧
  content_unmergedFiles (render this) = [] ∧
  button_disabled (footer_submit (render this)) = false ∧
  button_tooltip (footer_submit (render this)) = None ∧
  trace onCancel env this
    = dispatcher_abortMerge (repository (props this)) ::
      match settles env (dispatcher_abortMerge (repository (props this))) with
      | Fulfilled => [props_onDismissed]
      | Rejected => []
      end ∧
  (∀ p, dispatcher_showPopup p ∉ trace onCancel env this).
Proof.
  intros Hnone.
  assert (Hnil : getUnmergedFiles this = []).
  { unfold getUnmergedFiles. induction Hnone as [|f l Hf _ IH]; [done|].
    rewrite filter_cons_False; [exact IH|exact Hf]. }
  assert (Hdirect : Forall (λ f, file_status f ≠ Resolved) (getUnmergedFiles this))
    by (rewrite Hnil; constructor).
  rewrite (onCancel_direct this env Hdirect).
  cbn [render content_summary content_unmergedFiles footer_submit
       button_disabled button_tooltip]. rewrite Hnil.
  repeat split; try done.
  intros p Hp. unfold abort_of in Hp. destruct (settles env _); not_among Hp.
Qed.

Lemma dialog_without_unmerged_files_witness :
  trace onCancel all_fulfilled
        (sample_dialog [sample_file "README.md" (NonMerge 1) 0])
  = [dispatcher_abortMerge sample_repository; props_onDismissed].
Proof.
  apply (dialog_without_unmerged_files
           (sample_dialog [sample_file "README.md" (NonMerge 1) 0]) all_fulfilled).
  vm_compute. repeat constructor. intros [H|H]; discriminate H.
Defined.

(** X9: a merge that can be committed is never aborted without asking: if the
    commit button is enabled and the dialog lists at least one file, cancel
    dismisses the dialog and requests the confirmation popup, and abort-merge
    is not called. *)
Theorem committable_merge_is_not_aborted_directly
    (this : MergeConflictsDialog) (env : Env) :
  button_disabled (footer_submit (render this)) = false →
  getUnmergedFiles this ≠ [] →
  trace onCancel env this = [props_onDismissed; confirmation_of this] ∧
  ∀ r, dispatcher_abortMerge r ∉ trace onCancel env this.
Proof.
  intros Henabled Hsome.
  apply (some_false (λ f, file_status f = Conflicted)) in Henabled.
  assert (Hres : Exists (λ f, file_status f = Resolved) (getUnmergedFiles this)).
  { destruct (getUnmergedFiles this) as [|f l] eqn:Hl; [done|].
    apply Exists_cons_hd.
    assert (Hf : f ∈ getUnmergedFiles this) by (rewrite Hl; apply elem_of_cons; by left).
    apply elem_of_getUnmergedFiles in Hf as [_ [Hc|Hr]]; [|done].
    apply Forall_cons in Henabled as [Hnc _]. done. }
  destruct (onCancel_detour this env Hres) as [-> _].
  split; [done|]. intros r Hr. not_among Hr.
Qed.

Lemma committable_merge_is_not_aborted_directly_witness :
  trace onCancel all_fulfilled (sample_dialog [sample_file "a.txt" Resolved 0])
  = [props_onDismissed;
     confirmation_of (sample_dialog [sample_file "a.txt" Resolved 0])].
Proof.
  apply (committable_merge_is_not_aborted_directly
           (sample_dialog [sample_file "a.txt" Resolved 0]) all_fulfilled).
  - reflexivity.
  - vm_compute. discriminate.
Defined.

(** ** Failure of the awaited calls *)

(** X10: each handler dismisses the dialog exactly when it runs to its end.
    [onSubmit] stops short exactly when finalize-merge is rejected, [onCancel]
    exactly when nothing is resolved and abort-merge is rejected; in both
    cases the dialog stays open. *)
Theorem dialog_dismissed_iff_handler_completes
    (this : MergeConflictsDialog) (env : Env) :
  (completes onSubmit env this = false
   ↔ settles env (dispatcher_createMergeCommit (repository (props this))
                                               (this_files this)) = Rejected) ∧
  (completes onCancel env this = false
   ↔ Forall (λ f, file_status f ≠ Resolved) (getUnmergedFiles this) ∧
     settles env (dispatcher_abortMerge (repository (props this))) = Rejected) ∧
  (props_onDismissed ∈ trace onSubmit env this ↔ completes onSubmit env this = true) ∧
  (props_onDismissed ∈ trace onCancel env this ↔ completes onCancel env this = true).
Proof.
  assert (Hsub : completes onSubmit env this
                 = match settles env (finalize_of this) with
                   | Fulfilled => true | Rejected => false end).
  { unfold onSubmit. run_async. fold (finalize_of this).
    by destruct (settles env (finalize_of this)). }
  assert (Hcan : completes onCancel env this
                 = if some (λ f, file_status f = Resolved) (getUnmergedFiles this)
                   then true
                   else match settles env (abort_of this) with
                        | Fulfilled => true | Rejected => false end).
  { unfold onCancel. run_async. destruct (some _ _); cbn; [done|].
    fold (abort_of this). by destruct (settles env (abort_of this)). }
  split; [|split; [|split]].
  - rewrite Hsub. unfold finalize_of. destruct (settles env _); split; congruence.
  - rewrite Hcan, <- (some_false (λ f, file_status f = Resolved)).
    unfold abort_of. clear Hsub Hcan.
    destruct (some (λ f, file_status f = Resolved) (getUnmergedFiles this));
      destruct (settles env (dispatcher_abortMerge (repository (props this))));
      split; try done; try (by intros [? ?]).
  - rewrite Hsub, onSubmit_trace. clear Hsub Hcan.
    destruct (settles env (finalize_of this)); split; try done.
    + intros _. apply elem_of_cons. right. apply elem_of_cons. right.
      apply elem_of_cons. by left.
    + intros Hin. not_among Hin.
  - rewrite Hcan. clear Hsub Hcan. destruct (some _ _) eqn:Hs.
    + apply some_true in Hs. destruct (onCancel_detour this env Hs) as [-> _].
      split; [done|]. intros _. apply elem_of_cons. by left.
    + apply some_false in Hs. rewrite (onCancel_direct this env Hs).
      destruct (settles env (abort_of this)); split; try done.
      * intros _. apply elem_of_cons. right. apply elem_of_cons. by left.
      * intros Hin. not_among Hin.
Qed.

(** X11: the two handlers keep to their own operations.  Committing never
    aborts the merge or opens a popup; cancelling never commits or changes the
    section; and neither opens an editor or a shell. *)
Theorem handlers_keep_to_their_operations
    (this : MergeConflictsDialog) (env : Env) (e : Effect) :
  (e ∈ trace onSubmit env this →
   (∃ r fs, e = dispatcher_createMergeCommit r fs) ∨
   (∃ r, e = dispatcher_changeRepositorySection r Changes) ∨
   e = props_onDismissed) ∧
  (e ∈ trace onCancel env this →
   e = dispatcher_abortMerge (repository (props this)) ∨
   (∃ p, e = dispatcher_showPopup p ∧ popup_type p = AbortMerge) ∨
   e = props_onDismissed).
Proof.
  split.
  - rewrite onSubmit_trace. unfold finalize_of, navigate_of. intros Hin.
    destruct (settles env _).
    + apply elem_of_cons in Hin as [->|Hin]; [eauto|].
      apply elem_of_cons in Hin as [->|Hin]; [eauto|].
      apply elem_of_cons in Hin as [->|Hin]; [eauto|].
      by apply elem_of_nil in Hin.
    + apply elem_of_cons in Hin as [->|Hin]; [eauto|].
      by apply elem_of_nil in Hin.
  - destruct (decide (Exists (λ f, file_status f = Resolved) (getUnmergedFiles this)))
      as [Hsome|Hnone].
    + destruct (onCancel_detour this env Hsome) as [-> _]. intros Hin.
      apply elem_of_cons in Hin as [->|Hin]; [eauto|].
      apply elem_of_cons in Hin as [->|Hin].
      * right. left. by eexists.
      * by apply elem_of_nil in Hin.
    + apply (not_Exists_Forall _) in Hnone.
      rewrite (onCancel_direct this env Hnone). unfold abort_of. intros Hin.
      destruct (settles env _).
      * apply elem_of_cons in Hin as [->|Hin]; [eauto|].
        apply elem_of_cons in Hin as [->|Hin]; [eauto|].
        by apply elem_of_nil in Hin.
      * apply elem_of_cons in Hin as [->|Hin]; [eauto|].
        by apply elem_of_nil in Hin.
Qed.

(** X12: the shell link and the editor buttons leave the merge and the dialog
    alone: any handler of the dialog other than the commit and cancel handlers
    performs a single call, which is neither a merge operation nor a
    dismissal, and it cannot fail on an awaited call. *)
Theorem other_handlers_leave_merge_alone
    (h : Handler) (this : MergeConflictsDialog) (env : Env) :
  h ≠ this_onSubmit → h ≠ this_onCancel →
  ∃ e, trace (invoke h) env this = [e] ∧
       isMergeOperation e = false ∧
       e ≠ props_onDismissed ∧
       completes (invoke h) env this = true.
Proof.
  intros Hs Hc. destruct h as [| | |target]; try done.
  - exists (props_openRepositoryInShell (repository (props this))). by repeat split.
  - exists (props_openFileInExternalEditor target). by repeat split.
Qed.

Lemma other_handlers_leave_merge_alone_witness :
  ∃ e, trace (invoke (content_shellLink (render (sample_dialog []))))
             all_fulfilled (sample_dialog []) = [e] ∧
       isMergeOperation e = false ∧
       e ≠ props_onDismissed ∧
       completes (invoke (content_shellLink (render (sample_dialog []))))
                 all_fulfilled (sample_dialog []) = true.
Proof.
  apply (other_handlers_leave_merge_alone
           (content_shellLink (render (sample_dialog [])))
           (sample_dialog []) all_fulfilled); vm_compute; discriminate.
Defined.

(** ** The summary line determines the count *)

Lemma String_app_inj_r (s1 s2 t : string) : s1 +:+ t = s2 +:+ t → s1 = s2.
Proof.
  revert s2. induction s1 as [|c s1 IH]; intros [|d s2] H.
  - done.
  - pose proof (f_equal String.length H) as Hlen.
    rewrite !String_length_app in Hlen. cbn [String.length] in Hlen. lia.
  - pose proof (f_equal String.length H) as Hlen.
    rewrite !String_length_app in Hlen. cbn [String.length] in Hlen. lia.
  - injection H as -> H. f_equal. by apply IH.
Qed.

(** X13: different counts never share a summary line: the text of the summary
    determines the count it was made from. *)
Theorem summary_label_determines_count (n m : Z) :
  renderUnmergedFilesSummary n = renderUnmergedFilesSummary m ↔ n = m.
Proof.
  split; [|by intros ->].
  unfold renderUnmergedFilesSummary, toString.
  destruct (decide (n = 1)) as [->|Hn], (decide (m = 1)) as [->|Hm]; intros H.
  - done.
  - symmetry in H. by apply plural_is_not_singular in H.
  - by apply plural_is_not_singular in H.
  - apply String_app_inj_r in H. by apply (inj pretty) in H.
Qed.

(** ** The text under a conflicted file *)

(** Among the counts only one is [=== 1]. *)
Lemma strict_eq_one (c : Z) :
  isCount c → Number.strict_eq (Number.of_Z c) (Number.of_Z 1) = bool_decide (c = 1).
Proof.
  intros Hc. unfold isCount in Hc.
  destruct (Z.eq_dec c 0) as [->|Hnz]; [reflexivity|].
  destruct (Z.eq_dec c (2 ^ 53)) as [->|Hmax]; [vm_compute; reflexivity|].
  destruct (Z.eq_dec c 1) as [->|Hone]; [reflexivity|].
  rewrite bool_decide_eq_false_2 by done.
  assert (Hc' : 0 < c < 2 ^ 53) by lia.
  pose proof (Zdigits2_spec c ltac:(lia)) as [Hlo Hhi].
  pose proof (mantissa_bounds c Hc') as [Hd _].
  assert (Hd1 : Zdigits2 c ≠ 1).
  { intros Heq. rewrite Heq in Hhi. change (2 ^ 1) with 2 in Hhi. lia. }
  rewrite of_Z_pos by lia.
  change (Number.of_Z 1) with (S754_finite false 4503599627370496 (-52)).
  unfold Number.strict_eq, SFeqb, SFcompare.
  destruct (Z.compare_spec (Zdigits2 c - 53) (-52)); [lia|done|done].
Qed.

(** X14: for a marker count [m], the text under a conflicted file is the
    singular "1 conflict" exactly when [m] is 1, 2 or 3; otherwise it is the
    plural with [ceil(m / 3)], which for a file without markers reads
    "0 conflicts". *)
Theorem conflicts_message_by_count (path : string) (m : Z)
    (editorName : option string) (h : Handler) :
  isCount m →
  renderConflictedFile path (Number.of_Z m) editorName h
  = unmerged_file_status_conflicts path
      (if bool_decide (1 <= m <= 3) then one_conflict
       else n_conflicts (Number.of_Z (conflictCountFromMarkers m)))
      (editor_button editorName h).
Proof.
  intros Hm. unfold renderConflictedFile.
  rewrite calculateConflicts_exact by exact Hm.
  rewrite conflictCountFromMarkers_div.
  pose proof (Z.div_mod (m + 2) 3 ltac:(lia)) as Hdm.
  pose proof (Z.mod_pos_bound (m + 2) 3 ltac:(lia)) as Hr.
  unfold isCount in Hm. change (2 ^ 53) with 9007199254740992 in Hm.
  rewrite strict_eq_one
    by (unfold isCount; change (2 ^ 53) with 9007199254740992; lia).
  assert (Hiff : (m + 2) / 3 = 1 ↔ 1 <= m <= 3) by lia.
  unfold editor_button. f_equal.
  destruct (decide ((m + 2) / 3 = 1)) as [H1|H1].
  - rewrite bool_decide_eq_true_2 by done.
    by rewrite bool_decide_eq_true_2 by (by apply Hiff).
  - rewrite bool_decide_eq_false_2 by done.
    by rewrite bool_decide_eq_false_2 by (by rewrite <- Hiff).
Qed.

Lemma conflicts_message_by_count_witness :
  renderConflictedFile "a.txt" (Number.of_Z 7) None this_onCancel
  = unmerged_file_status_conflicts "a.txt" (n_conflicts (Number.of_Z 3))
      (editor_button None this_onCancel).
Proof.
  apply (conflicts_message_by_count "a.txt" 7 None this_onCancel).
  unfold isCount. vm_compute. split; discriminate.
Defined.

(** X15: a marker count that is not a finite non-zero number (a zero, an
    infinity or NaN) is not rejected or replaced: [calculateConflicts] hands
    it back unchanged, and the text under the file is the plural built from
    it. *)
Theorem calculateConflicts_passes_special_values (x : Number.t)
    (path : string) (editorName : option string) (h : Handler) :
  (∀ s m e, x ≠ S754_finite s m e) →
  calculateConflicts x = x ∧
  item_message (renderConflictedFile path x editorName h) = Some (n_conflicts x).
Proof.
  intros Hx. destruct x as [s|s|  |s m e].
  - by destruct s.
  - by destruct s.
  - done.
  - by destruct (Hx s m e).
Qed.

Lemma calculateConflicts_passes_special_values_witness :
  calculateConflicts S754_nan = S754_nan.
Proof.
  apply (calculateConflicts_passes_special_values S754_nan "a.txt" None this_onCancel).
  intros s m e. discriminate.
Defined.

(** ** Negative marker counts *)

Section NegativeCounts.
Implicit Types (m M e : Z) (l : location).

(** The sign takes no part in rounding. *)
Lemma binary_round_aux_opp M e l :
  binary_round_aux 53 1024 true M e l = SFopp (binary_round_aux 53 1024 false M e l).
Proof.
  unfold binary_round_aux.
  destruct (shr_fexp 53 1024 M e l) as [mrs' e'].
  destruct (shr_fexp 53 1024 _ e' loc_Exact) as [mrs'' e''].
  destruct (shr_m mrs''); [done| |done].
  by destruct (e'' <=? 1024 - 53).
Qed.

Lemma of_Z_opp m : 0 < m → Number.of_Z (- m) = SFopp (Number.of_Z m).
Proof.
  intros Hm. destruct m as [|p|p]; try lia. change (- Z.pos p) with (Z.neg p).
  unfold Number.of_Z, binary_normalize, binary_round, Number.prec, Number.emax.
  destruct (shl_align p 0 _) as [mz ez]. apply binary_round_aux_opp.
Qed.

Lemma div_opp_three m :
  0 < m < 2 ^ 53 →
  Number.div (SFopp (Number.of_Z m)) (Number.of_Z 3)
  = SFopp (Number.div (Number.of_Z m) (Number.of_Z 3)).
Proof.
  intros Hm. rewrite of_Z_pos, of_Z_three by lia.
  unfold Number.div, Number.prec, Number.emax, SFdiv, SFopp. cbn [negb xorb].
  destruct (SFdiv_core_binary 53 1024 _ _ _ _) as [[mz ez] lz].
  apply binary_round_aux_opp.
Qed.

(** The quotient of a count by three, as a number: a positive mantissa with at
    least one binary place below the point, within a third of a unit in the
    last place of the exact quotient. *)
Lemma div_three_shape m :
  0 < m < 2 ^ 53 →
  ∃ mant k,
    Number.div (Number.of_Z m) (Number.of_Z 3) = S754_finite false mant (Zneg k) ∧
    -1 <= 3 * Zpos mant - m * 2 ^ Zpos k <= 1.
Proof.
  intros Hm. pose proof (mantissa_bounds m Hm) as [Hd HM].
  unfold Number.div.
  rewrite of_Z_pos, of_Z_three by lia. unfold Number.prec, Number.emax, SFdiv.
  rewrite Z2Pos.id by lia.
  rewrite div_core by lia. cbv zeta.
  rewrite location_of_remainder by (apply Z.mod_pos_bound; lia).
  assert (HN : m * 2 ^ (55 - Zdigits2 m) = 4 * Number.mantissa m).
  { unfold Number.mantissa. replace (55 - Zdigits2 m) with (2 + (53 - Zdigits2 m)) by lia.
    rewrite Z.pow_add_r by lia. change (2 ^ 2) with 4. lia. }
  rewrite HN.
  destruct (round_aux_quotient (Number.mantissa m) (Zdigits2 m - 55) HM ltac:(lia))
    as (mant & sh & Heq & Hsh).
  unfold Number.loc3 in Heq. cbn [xorb]. rewrite Heq.
  destruct Hsh as [[-> Hb]|[-> Hb]].
  - destruct (Zdigits2 m - 55 + 0) as [|k|k] eqn:Hk; try lia.
    exists mant, k. split; [done|].
    replace (Zpos k) with (55 - Zdigits2 m) by lia. lia.
  - destruct (Zdigits2 m - 55 + 1) as [|k|k] eqn:Hk; try lia.
    exists mant, k. split; [done|].
    replace (Zpos k) with (54 - Zdigits2 m) by lia.
    assert (m * 2 ^ (54 - Zdigits2 m) = 2 * Number.mantissa m); [|lia].
    unfold Number.mantissa. replace (54 - Zdigits2 m) with (1 + (53 - Zdigits2 m)) by lia.
    rewrite Z.pow_add_r by lia. lia.
Qed.

Lemma to_Z_of_Z_opp m : isCount m → Number.to_Z (Number.of_Z (- m)) = Some (- m).
Proof.
  intros Hm. unfold isCount in Hm.
  destruct (Z.eq_dec m 0) as [->|Hnz]; [reflexivity|].
  destruct (Z.eq_dec m (2 ^ 53)) as [->|Hmax]; [vm_compute; reflexivity|].
  assert (Hm' : 0 < m < 2 ^ 53) by lia.
  pose proof (mantissa_bounds m Hm') as [Hd HM].
  rewrite of_Z_opp, of_Z_pos by lia. unfold SFopp, Number.to_Z. cbn [negb].
  assert (HM' : Zneg (Z.to_pos (Number.mantissa m)) = - Number.mantissa m).
  { rewrite <- Pos2Z.opp_pos, Z2Pos.id by lia. done. }
  rewrite HM'. unfold Number.mantissa.
  destruct (Zdigits2 m - 53) as [|k|k] eqn:Hk; try lia.
  - replace (53 - Zdigits2 m) with 0 by lia. rewrite Z.pow_0_r. f_equal. lia.
  - replace (53 - Zdigits2 m) with (Zpos k) by lia.
    assert (Hnz' : 2 ^ Zpos k ≠ 0) by (apply Z.pow_nonzero; lia).
    rewrite <- Z.mul_opp_l, Z.mod_mul, Z.div_mul by done. reflexivity.
Qed.
End NegativeCounts.

(** X16: a negative marker count is neither rejected nor clamped to zero.
    For every count [m > 0], [calculateConflicts] applied to [-m] returns
    minus the whole part of [m / 3]; for [-1] and [-2] that is the negative
    zero, which [===] takes for zero. *)
Theorem calculateConflicts_negative_count (m : Z) :
  isCount m → 0 < m →
  calculateConflicts (Number.of_Z (- m))
  = (if decide (m < 3) then S754_zero true else Number.of_Z (- (m / 3))) ∧
  Number.to_Z (calculateConflicts (Number.of_Z (- m))) = Some (- (m / 3)) ∧
  (m < 3 →
   Number.strict_eq (calculateConflicts (Number.of_Z (- m))) (Number.of_Z 0) = true).
Proof.
  intros Hm Hpos.
  assert (Hmain : calculateConflicts (Number.of_Z (- m))
                  = if decide (m < 3) then S754_zero true else Number.of_Z (- (m / 3))).
  { unfold isCount in Hm.
    destruct (Z.eq_dec m (2 ^ 53)) as [->|Hmax]; [vm_compute; reflexivity|].
    assert (Hm' : 0 < m < 2 ^ 53) by lia.
    unfold calculateConflicts. rewrite of_Z_opp, div_opp_three by lia.
    destruct (div_three_shape m Hm') as (mant & k & -> & Hb).
    unfold SFopp, Math_ceil. cbn [negb].
    assert (HT : 2 <= 2 ^ Zpos k).
    { change 2 with (2 ^ 1) at 1. apply Z.pow_le_mono_r; lia. }
    set (T := 2 ^ Zpos k) in *.
    pose proof (Z.div_mod m 3 ltac:(lia)) as Hdm.
    pose proof (Z.mod_pos_bound m 3 ltac:(lia)) as Hr.
    assert (Hdiv : Zpos mant / T = m / 3).
    { symmetry. apply (Z.div_unique _ _ _ (Zpos mant - m / 3 * T)); nia. }
    replace (- Zneg mant) with (Zpos mant) by done. rewrite Hdiv.
    destruct (decide (m < 3)) as [Hlt|Hge].
    - replace (m / 3) with 0 by (symmetry; apply Z.div_small; lia). done.
    - assert (0 < m / 3) by (apply Z.div_str_pos; lia).
      destruct (m / 3) as [|q|q] eqn:Hq; try lia. done. }
  rewrite Hmain. split; [done|]. split.
  - destruct (decide (m < 3)) as [Hlt|Hge].
    + replace (m / 3) with 0 by (symmetry; apply Z.div_small; lia). done.
    + apply to_Z_of_Z_opp. unfold isCount in *.
      pose proof (Z.div_mod m 3 ltac:(lia)). pose proof (Z.mod_pos_bound m 3 ltac:(lia)).
      lia.
  - intros Hlt. by rewrite decide_True by done.
Qed.

Lemma calculateConflicts_negative_count_witness :
  Number.to_Z (calculateConflicts (Number.of_Z (- 7))) = Some (- 2).
Proof.
  apply (calculateConflicts_negative_count 7).
  - unfold isCount. vm_compute. split; discriminate.
  - reflexivity.
Defined.
